(** * Wardrobe Styling App ([multiple.py]): a shallow embedding

    The script is a Streamlit page that sends wardrobe pictures to a hosted
    generative model, scrapes a JSON array out of the reply, keeps the
    resulting catalog in [st.session_state] and asks the same model for
    outfit combinations.

    Everything the script does not define itself (Streamlit, the
    [google.generativeai] client, PIL, [json], [os], [dotenv], [repr]) is
    outside the program: each call to it is an entry of the run's log, and
    its answer is taken from an arbitrary, stateful outside world. The
    regular expression of [analyze_image] is part of the source and is
    embedded together with a backtracking matcher for the fragment of
    Python's [re] that it uses. *)

From Stdlib Require Import ZArith NArith Ascii String List.
From Stdlib Require Import Floats.SpecFloat.
From stdpp Require Import base option list strings pretty gmap.

Open Scope list_scope.
Set Warnings "-register-all".

(** ** Python strings *)

(** A Python [str] is a sequence of Unicode code points. *)
Definition pystr : Type := list N.

(** A literal of the source (all of them are ASCII). *)
Definition str (s : string) : pystr :=
  List.map N_of_ascii (list_ascii_of_string s).

(** The double quote and the line feed. *)
Definition dq : pystr := [34%N].
Definition nl : pystr := [10%N].

(** [Py_UNICODE_ISSPACE]: what [str.strip()] removes and what [\s] matches
    in a [str] pattern. *)
Definition isspace (c : N) : bool :=
  ((9 <=? c) && (c <=? 13) || (28 <=? c) && (c <=? 32)
   || (c =? 133) || (c =? 160) || (c =? 5760)
   || (8192 <=? c) && (c <=? 8202)
   || (c =? 8232) || (c =? 8233) || (c =? 8239) || (c =? 8287)
   || (c =? 12288))%N.

Fixpoint lstrip (s : pystr) : pystr :=
  match s with
  | c :: s' => if isspace c then lstrip s' else s
  | [] => []
  end.

Definition rstrip (s : pystr) : pystr := rev (lstrip (rev s)).

(** [s.strip()] *)
Definition strip (s : pystr) : pystr := rstrip (lstrip s).

(** [sep.join(parts)] for parts that are already known to be strings. *)
Fixpoint join (sep : pystr) (parts : list pystr) : pystr :=
  match parts with
  | [] => []
  | [p] => p
  | p :: ps => p ++ sep ++ join sep ps
  end.

(** [needle in s] as a proposition. *)
Definition contains (needle s : pystr) : Prop :=
  exists pre post, s = pre ++ needle ++ post.

(** [c * n] for a one-character string [c]. *)
Definition repeat_str (c : pystr) (n : nat) : pystr :=
  List.concat (List.repeat c n).

(** ** The fragment of [re] used by the script *)

Module Re.

(** One pattern character. *)
Inductive atom :=
| Lit (c : N)      (* an escaped literal such as [\[] *)
| Space            (* [\s] *)
| Dot.             (* [.] under [re.DOTALL]: any character, line feed included *)

(** A pattern is a sequence of atoms, each taken once or under a greedy
    star. *)
Inductive item :=
| One (a : atom)
| Star (a : atom).

Definition pattern := list item.

Definition atom_matches (a : atom) (c : N) : bool :=
  match a with
  | Lit c' => (c =? c')%N
  | Space => isspace c
  | Dot => true
  end.

(** Match [p] at the start of [s], in the order a backtracking engine tries
    the alternatives: a star first takes one more character and falls back
    to the rest of the pattern only when that fails. The result is the
    matched text. *)
Fixpoint match_here (p : pattern) : pystr -> option pystr :=
  match p with
  | [] => fun _ => Some []
  | One a :: p' => fun s =>
      match s with
      | c :: s' =>
          if atom_matches a c
          then option_map (cons c) (match_here p' s')
          else None
      | [] => None
      end
  | Star a :: p' =>
      fix star (s : pystr) : option pystr :=
        match s with
        | c :: s' =>
            if atom_matches a c
            then match star s' with
                 | Some m => Some (c :: m)
                 | None => match_here p' s
                 end
            else match_here p' s
        | [] => match_here p' []
        end
  end.

(** [re.search(p, s)]: the match at the leftmost position that has one;
    the result is [group(0)]. *)
Fixpoint search (p : pattern) (s : pystr) : option pystr :=
  match match_here p s with
  | Some m => Some m
  | None =>
      match s with
      | [] => None
      | _ :: s' => search p s'
      end
  end.

(** The texts a pattern stands for. *)
Fixpoint lang (p : pattern) (m : pystr) : Prop :=
  match p with
  | [] => m = []
  | One a :: p' =>
      exists c m', m = c :: m' /\ atom_matches a c = true /\ lang p' m'
  | Star a :: p' =>
      exists cs m',
        m = cs ++ m' /\ Forall (fun c => atom_matches a c = true) cs
        /\ lang p' m'
  end.

End Re.

(** [r'\[\s*\{.*\}\s*\]'] with [re.DOTALL] *)
Definition json_array_re : Re.pattern :=
  [ Re.One (Re.Lit 91); Re.Star Re.Space; Re.One (Re.Lit 123);
    Re.Star Re.Dot;
    Re.One (Re.Lit 125); Re.Star Re.Space; Re.One (Re.Lit 93) ].

(** ** Python values *)

(** What [json.loads] can return, and so what a catalog is made of. A
    dictionary keeps its insertion order. *)
Inductive PyValue :=
| PyNone
| PyBool (b : bool)
| PyInt (z : Z)
| PyFloat (f : spec_float)
| PyStr (s : pystr)
| PyList (l : list PyValue)
| PyDict (d : list (pystr * PyValue)).

(** The exceptions the script can meet; all of them derive from
    [Exception]. The argument is [str(e)]. *)
Inductive Exn :=
| JSONDecodeError (msg : pystr)
| AttributeError (msg : pystr)
| TypeError (msg : pystr)
| UnicodeEncodeError (msg : pystr)
| OtherError (msg : pystr).

Definition exn_str (e : Exn) : pystr :=
  match e with
  | JSONDecodeError msg | AttributeError msg | TypeError msg
  | UnicodeEncodeError msg | OtherError msg => msg
  end.

Definition type_name (v : PyValue) : pystr :=
  match v with
  | PyNone => str "NoneType"
  | PyBool _ => str "bool"
  | PyInt _ => str "int"
  | PyFloat _ => str "float"
  | PyStr _ => str "str"
  | PyList _ => str "list"
  | PyDict _ => str "dict"
  end.

(** [d.get(key, default)] on the bindings of a dictionary. *)
Fixpoint dict_get (d : list (pystr * PyValue)) (key : pystr) (default : PyValue)
  : PyValue :=
  match d with
  | [] => default
  | (k, v) :: d' => if decide (k = key) then v else dict_get d' key default
  end.

(** [text.encode('utf-8')]: the bytes of one code point; a surrogate has
    none. *)
Definition utf8_char (c : N) : option (list N) :=
  (if c <? 128 then Some [c]
   else if c <? 2048 then Some [192 + c / 64; 128 + c mod 64]
   else if (55296 <=? c) && (c <=? 57343) then None
   else if c <? 65536
        then Some [224 + c / 4096; 128 + (c / 64) mod 64; 128 + c mod 64]
   else Some [240 + c / 262144; 128 + (c / 4096) mod 64;
              128 + (c / 64) mod 64; 128 + c mod 64])%N.

(** How many surrogates [s] starts with. *)
Fixpoint surrogate_run (s : pystr) : nat :=
  match s with
  | c :: s' =>
      match utf8_char c with
      | None => S (surrogate_run s')
      | Some _ => 0
      end
  | [] => 0
  end.

(** [\uXXXX], as the codec writes a code point below 65536 in its
    message. *)
Definition hex_digit (d : N) : N :=
  (if d <? 10 then 48 + d else 87 + d)%N.

Definition unicode_escape (c : N) : pystr :=
  [92; 117; hex_digit (c / 4096); hex_digit ((c / 256) mod 16);
   hex_digit ((c / 16) mod 16); hex_digit (c mod 16)]%N.

(** The codec stops at the first surrogate, at position [pos], and names
    the run of surrogates that starts there. *)
Fixpoint encode_from (pos : nat) (s : pystr) : Exn + list N :=
  match s with
  | [] => inr []
  | c :: s' =>
      match utf8_char c with
      | None =>
          inl (UnicodeEncodeError
                 (str "'utf-8' codec can't encode "
                  ++ match surrogate_run s' with
                     | O =>
                         str "character '" ++ unicode_escape c
                         ++ str "' in position " ++ str (pretty pos)
                     | S n =>
                         str "characters in position " ++ str (pretty pos)
                         ++ str "-" ++ str (pretty (pos + S n)%nat)
                     end
                  ++ str ": surrogates not allowed"))
      | Some bs =>
          match encode_from (S pos) s' with
          | inl e => inl e
          | inr rest => inr (bs ++ rest)
          end
      end
  end.

Definition encode_utf8 (s : pystr) : Exn + list N := encode_from 0 s.

(** [item.get(key, default)]: only a dictionary has the method. *)
Definition py_get (item : PyValue) (key : pystr) (default : PyValue)
  : Exn + PyValue :=
  match item with
  | PyDict d => inr (dict_get d key default)
  | _ =>
      inl (AttributeError
             (str "'" ++ type_name item
              ++ str "' object has no attribute 'get'"))
  end.

(** [for x in v]: the elements of a list, the characters of a string, the
    keys of a dictionary. *)
Definition py_iter (v : PyValue) : Exn + list PyValue :=
  match v with
  | PyList l => inr l
  | PyStr s => inr (List.map (fun c => PyStr [c]) s)
  | PyDict d => inr (List.map (fun kv => PyStr (fst kv)) d)
  | _ =>
      inl (TypeError
             (str "'" ++ type_name v ++ str "' object is not iterable"))
  end.

(** The strings of [parts], or the first element that is not one, with
    its index; [i] is the index of the head of [parts]. *)
Fixpoint all_str (i : nat) (parts : list PyValue)
  : (nat * PyValue) + list pystr :=
  match parts with
  | [] => inr []
  | PyStr s :: rest =>
      match all_str (S i) rest with
      | inr ss => inr (s :: ss)
      | inl bad => inl bad
      end
  | v :: _ => inl (i, v)
  end.

(** [sep.join(v)] *)
Definition py_join (sep : pystr) (v : PyValue) : Exn + pystr :=
  match py_iter v with
  | inr parts =>
      match all_str 0 parts with
      | inr ss => inr (join sep ss)
      | inl (i, bad) =>
          inl (TypeError
                 (str "sequence item " ++ str (pretty i)
                  ++ str ": expected str instance, "
                  ++ type_name bad ++ str " found"))
      end
  | inl _ => inl (TypeError (str "can only join an iterable"))
  end.

(** ** The outside world *)

(** Objects of the libraries, known by their identity. *)
Inductive Upload := UploadedFile (id : N).      (* streamlit's UploadedFile *)
Inductive Image := ImageFile (id : N).          (* PIL.Image.Image *)
Inductive Model := GenerativeModelObj (id : N). (* genai.GenerativeModel *)
Inductive Response := ResponseObj (id : N).     (* GenerateContentResponse *)

(** The argument of [generate_content]: a list of parts or one string. *)
Inductive Part :=
| TextPart (s : pystr)
| ImagePart (i : Image).

Inductive Contents :=
| Parts (l : list Part)
| Text (s : pystr).

(** Streamlit calls that take no answer from the user: what is drawn, the
    two ends of a [with] block, and [st.stop()]. *)
Inductive Widget :=
| title (body : pystr)
| sidebar_title (body : pystr)
| header (body : pystr)
| subheader (body : pystr)
| markdown (body : pystr) (unsafe_allow_html : bool)
| error (body : pystr)
| warning (body : pystr)
| success (body : pystr)
| image (f : Upload) (caption : pystr) (use_column_width : bool)
| download_button (label : pystr) (data : list N) (file_name mime : pystr)
| spinner_enter (text : pystr)
| spinner_exit
| expander_enter (label : pystr) (expanded : bool)
| expander_exit
| stop.

(** Every call that leaves the script, indexed by the type of its answer. A
    library call answers with a value or with the exception it raised. *)
Inductive Event : Type -> Type :=
| LoadDotenv : Event (Exn + unit)
    (* load_dotenv(find_dotenv(), override=True) *)
| Getenv (name : pystr) : Event (option pystr)
| GenaiConfigure (api_key : option pystr) : Event (Exn + unit)
| GenerativeModel (model_name : pystr) : Event (Exn + Model)
| ImageOpen (f : Upload) : Event (Exn + Image)
| GenerateContent (m : Model) (contents : Contents) : Event (Exn + Response)
| ResponseText (r : Response) : Event (Exn + pystr)
| JsonLoads (s : pystr) : Event (Exn + PyValue)
| St (w : Widget) : Event unit
    (* a Streamlit call on a text of the script, an exception's message or
       the model's reply, and the ends of a with block *)
| StData (w : Widget) : Event (Exn + unit)
    (* a Streamlit call that has to decode or encode what it is given and
       raises when it cannot: st.image on a file that is no picture,
       st.expander and st.markdown on a text out of json.loads, which can
       hold a lone surrogate *)
| SidebarRadio (label : pystr) (options : list pystr) : Event pystr
| Radio (label : pystr) (options : list pystr) : Event pystr
| FileUploader (label : pystr) (types : list pystr) : Event (list Upload)
    (* accept_multiple_files=True *)
| CameraInput (label : pystr) : Event (option Upload).

(** One entry of the log of a run: the call and its answer. *)
Inductive Entry :=
| Logged {X : Type} (e : Event X) (answer : X).

(** What a computation ends with: a value, an exception on its way up, or
    the end of the script run by [st.stop()]. *)
Inductive Outcome (A : Type) :=
| Ok (a : A)
| Raise (e : Exn)
| Halt.
Arguments Ok {A} a.
Arguments Raise {A} e.
Arguments Halt {A}.

(** ** Observers of the log *)

(** What [f] sees in a log, in order. *)
Fixpoint observe {A : Type} (f : Entry -> option A) (log : list Entry)
  : list A :=
  match log with
  | [] => []
  | en :: rest =>
      match f en with
      | Some a => a :: observe f rest
      | None => observe f rest
      end
  end.

(** The exception a library call answered with. *)
Definition raised (en : Entry) : option Exn :=
  match en with
  | @Logged X e x =>
      match e in Event X return X -> option Exn with
      | LoadDotenv | GenaiConfigure _ =>
          fun x => match x with inl ex => Some ex | inr _ => None end
      | GenerativeModel _ =>
          fun x => match x with inl ex => Some ex | inr _ => None end
      | ImageOpen _ =>
          fun x => match x with inl ex => Some ex | inr _ => None end
      | GenerateContent _ _ =>
          fun x => match x with inl ex => Some ex | inr _ => None end
      | ResponseText _ =>
          fun x => match x with inl ex => Some ex | inr _ => None end
      | JsonLoads _ =>
          fun x => match x with inl ex => Some ex | inr _ => None end
      | _ => fun _ => None
      end x
  end.

(** The model and the contents of a call to [generate_content]. *)
Definition generate_call (en : Entry) : option (Model * Contents) :=
  match en with
  | Logged (GenerateContent m c) _ => Some (m, c)
  | _ => None
  end.

(** The text a response gave. *)
Definition reply_text (en : Entry) : option pystr :=
  match en with
  | @Logged X e x =>
      match e in Event X return X -> option pystr with
      | ResponseText _ =>
          fun x => match x with inr t => Some t | inl _ => None end
      | _ => fun _ => None
      end x
  end.

(** The argument and the answer of a call to [json.loads]. *)
Definition loads_call (en : Entry) : option (pystr * (Exn + PyValue)) :=
  match en with
  | @Logged X e x =>
      match e in Event X return X -> option (pystr * (Exn + PyValue)) with
      | JsonLoads s => fun x => Some (s, x)
      | _ => fun _ => None
      end x
  end.

(** The widget of a drawing call, when it was drawn. *)
Definition drawn (en : Entry) : option Widget :=
  match en with
  | @Logged X e x =>
      match e in Event X return X -> option Widget with
      | St w => fun _ => Some w
      | StData w =>
          fun x => match x with inr _ => Some w | inl _ => None end
      | _ => fun _ => None
      end x
  end.

(** The widget Streamlit did not draw, and the exception it raised
    instead. *)
Definition refused (en : Entry) : option (Widget * Exn) :=
  match en with
  | @Logged X e x =>
      match e in Event X return X -> option (Widget * Exn) with
      | StData w =>
          fun x => match x with inl ex => Some (w, ex) | inr _ => None end
      | _ => fun _ => None
      end x
  end.

(** The picture [st.image] did not show. *)
Definition unshown (en : Entry) : option Upload :=
  match refused en with
  | Some (image f _ _, _) => Some f
  | _ => None
  end.

(** The model a constructor call built. *)
Definition built_model (en : Entry) : option (pystr * (Exn + Model)) :=
  match en with
  | @Logged X e x =>
      match e in Event X return X -> option (pystr * (Exn + Model)) with
      | GenerativeModel n => fun x => Some (n, x)
      | _ => fun _ => None
      end x
  end.

Definition configured (en : Entry) : option (option pystr) :=
  match en with
  | Logged (GenaiConfigure k) _ => Some k
  | _ => None
  end.

(** The answer of [os.getenv]. *)
Definition env_read (en : Entry) : option (pystr * option pystr) :=
  match en with
  | @Logged X e x =>
      match e in Event X return X -> option (pystr * option pystr) with
      | Getenv name => fun x => Some (name, x)
      | _ => fun _ => None
      end x
  end.

(** The page picked in the sidebar. *)
Definition page_chosen (en : Entry) : option pystr :=
  match en with
  | @Logged X e x =>
      match e in Event X return X -> option pystr with
      | SidebarRadio _ _ => fun x => Some x
      | _ => fun _ => None
      end x
  end.

(** The file handed to [Image.open], the first step of every
    [analyze_image]. *)
Definition opened (en : Entry) : option Upload :=
  match en with
  | Logged (ImageOpen f) _ => Some f
  | _ => None
  end.

(** The list [json.loads] answered with. *)
Definition parsed_list (en : Entry) : option (list PyValue) :=
  match loads_call en with
  | Some (_, inr (PyList l)) => Some l
  | _ => None
  end.


(** ** The script *)

Section Script.

(** The state of everything outside the script, and how it answers a call.
    Nothing is assumed about either: the hosted model, the user and the
    libraries may answer anything, and differently each time. *)
Context {World : Type}.
Variable ext : forall X : Type, Event X -> World -> X * World.

(** Python's builtin [repr], by which [str()] and f-strings format
    anything that is not a string. *)
Variable py_repr : PyValue -> pystr.

(** [st.session_state] and the outside world. *)
Record State := mkState {
  session : gmap string PyValue;
  world : World
}.

(** A computation: from a state to an outcome, the next state and the log
    of the calls made, oldest first. *)
Definition M (A : Type) : Type := State -> Outcome A * State * list Entry.

Definition ret {A} (a : A) : M A := fun s => (Ok a, s, []).

Definition bind {A B} (m : M A) (k : A -> M B) : M B :=
  fun s =>
    match m s with
    | (Ok a, s1, log1) =>
        let '(r, s2, log2) := k a s1 in (r, s2, log1 ++ log2)
    | (Raise e, s1, log1) => (Raise e, s1, log1)
    | (Halt, s1, log1) => (Halt, s1, log1)
    end.

Notation "x <- m ;; k" := (bind m (fun x => k))
  (at level 100, m at next level, right associativity).
Notation "m ;; k" := (bind m (fun _ => k))
  (at level 100, right associativity).

Definition raise {A} (e : Exn) : M A := fun s => (Raise e, s, []).

(** A call that leaves the script. *)
Definition call {X} (e : Event X) : M X :=
  fun s =>
    let '(x, w) := ext X e (world s) in
    (Ok x, mkState (session s) w, [Logged e x]).

(** A library call, whose exception goes up from the call site. *)
Definition lib {X} (e : Event (Exn + X)) : M X :=
  r <- call e ;;
  match r with
  | inr x => ret x
  | inl ex => raise ex
  end.

(** A call of [st.<widget>(...)]. *)
Definition st (w : Widget) : M unit := call (St w).

(** A call of [st.<widget>(...)] on data of the user or of the model: its
    exception goes up from the call site. *)
Definition st_data (w : Widget) : M unit := lib (StData w).

(** [st.stop()]: the run of the script ends here. *)
Definition st_stop {A} : M A :=
  st stop ;; (fun s => (Halt, s, [])).

(** [try: body except Exception as e: handler(e)] *)
Definition try_except {A} (body : M A) (handler : Exn -> M A) : M A :=
  fun s =>
    match body s with
    | (Raise e, s1, log1) =>
        let '(r, s2, log2) := handler e s1 in (r, s2, log1 ++ log2)
    | other => other
    end.

(** [try: body except json.JSONDecodeError as e: handler(e)] *)
Definition try_except_JSONDecodeError {A} (body : M A)
    (handler : Exn -> M A) : M A :=
  fun s =>
    match body s with
    | (Raise (JSONDecodeError msg), s1, log1) =>
        let '(r, s2, log2) := handler (JSONDecodeError msg) s1 in
        (r, s2, log1 ++ log2)
    | other => other
    end.

(** [with st.<container>(...): body]: the container is left however the
    body ends. *)
Definition with_ {A} (enter leave : Widget) (body : M A) : M A :=
  st enter ;;
  (fun s =>
     let '(r, s1, log1) := body s in
     let '(_, s2, log2) := st leave s1 in
     (r, s2, log1 ++ log2)).

(** The same for a container whose label is data: when the label is
    refused the body is not entered. *)
Definition with_data {A} (enter leave : Widget) (body : M A) : M A :=
  st_data enter ;;
  (fun s =>
     let '(r, s1, log1) := body s in
     let '(_, s2, log2) := st leave s1 in
     (r, s2, log1 ++ log2)).

(** ['key' in st.session_state] *)
Definition session_has (key : string) : M bool :=
  fun s => (Ok (bool_decide (is_Some (session s !! key))), s, []).

(** [st.session_state.key] *)
Definition session_get (key : string) : M PyValue :=
  fun s =>
    match session s !! key with
    | Some v => (Ok v, s, [])
    | None =>
        (Raise (AttributeError
                  (str "st.session_state has no attribute " ++ str key)),
         s, [])
    end.

(** [st.session_state.key = v] *)
Definition session_set (key : string) (v : PyValue) : M unit :=
  fun s => (Ok tt, mkState (<[key := v]> (session s)) (world s), []).

(** *** Python operations on values *)

(** [str(v)], also what [{v}] gives in an f-string. *)
Definition py_str (v : PyValue) : pystr :=
  match v with
  | PyStr s => s
  | _ => py_repr v
  end.

(** An operation of Python on values, run inside the script. *)
Definition lift {A} (r : Exn + A) : M A :=
  match r with
  | inr a => ret a
  | inl e => raise e
  end.

Definition get (item : PyValue) (key : pystr) (default : PyValue)
  : M PyValue :=
  lift (py_get item key default).

Definition iter (v : PyValue) : M (list PyValue) := lift (py_iter v).

Definition join_value (sep : pystr) (v : PyValue) : M pystr :=
  lift (py_join sep v).

(** The truth value of [None] or a list, and of [None] or a string. *)
Definition truthy {A} (v : option (list A)) : bool :=
  match v with
  | Some (_ :: _) => true
  | _ => false
  end.

(** *** The functions of the script *)

Section Functions.

(** The module-level [model], built once by the script before [main]
    runs and used by both functions below. *)
Variable model : Model.

Definition analysis_prompt : pystr :=
  nl
  ++ str "            Analyze the given image and identify each piece of clothing." ++ nl
  ++ str "            For each item, provide a description, category, colors, and style." ++ nl
  ++ str "            Ensure the output is a valid JSON array of objects with this structure:" ++ nl
  ++ str "            [{" ++ dq ++ str "description" ++ dq ++ str ": " ++ dq ++ dq
     ++ str ", " ++ dq ++ str "category" ++ dq ++ str ": " ++ dq ++ dq
     ++ str ", " ++ dq ++ str "colors" ++ dq ++ str ": [], "
     ++ dq ++ str "style" ++ dq ++ str ": [], "
     ++ dq ++ str "gender_type" ++ dq ++ str ": " ++ dq ++ dq
     ++ str ", " ++ dq ++ str "suitable_weather" ++ dq ++ str ": " ++ dq ++ dq
     ++ str ", " ++ dq ++ str "material" ++ dq ++ str ": " ++ dq ++ dq
     ++ str ", " ++ dq ++ str "occasion" ++ dq ++ str ": " ++ dq ++ dq
     ++ str "}]" ++ nl
  ++ str "            Socks arent undergarments." ++ nl
  ++ str "            Only output the JSON array. Do not include any extra text or formatting outside the JSON." ++ nl
  ++ str "        ".

Definition analyze_image (image : Upload) : M (option (list PyValue)) :=
  try_except
    (let prompt := analysis_prompt in
     image_data <- lib (ImageOpen image) ;;
     response <- lib (GenerateContent model
                        (Parts [TextPart prompt; ImagePart image_data])) ;;
     text <- lib (ResponseText response) ;;
     let raw_response := strip text in
     let json_match := Re.search json_array_re raw_response in
     match json_match with
     | Some cleaned_json =>
         try_except_JSONDecodeError
           (json_response <- lib (JsonLoads cleaned_json) ;;
            match json_response with
            | PyList l => ret (Some l)
            | _ =>
                st (error (str "The response should be an array of objects.")) ;;
                ret None
            end)
           (fun e =>
              st (error (str "Error parsing JSON from the cleaned response: "
                         ++ exn_str e)) ;;
              ret None)
     | None =>
         st (error (str "Failed to extract JSON from the response. Please check the format.")) ;;
         ret None
     end)
    (fun e =>
       st (error (str "Error analyzing image: " ++ exn_str e)) ;;
       ret None).

Definition outfit_prompt (catalog : PyValue) : pystr :=
  str "Given the following clothing catalog, generate at least three distinct outfit combinations. Provide a short description for each outfit." ++ nl
  ++ nl
  ++ str "        Catalog: " ++ py_str catalog ++ nl
  ++ str "    ".

Definition generate_outfit_combinations (catalog : PyValue)
  : M (option pystr) :=
  let prompt := outfit_prompt catalog in
  try_except
    (response <- lib (GenerateContent model (Text prompt)) ;;
     text <- lib (ResponseText response) ;;
     ret (Some text))
    (fun e =>
       st (error (str "Error generating outfit combinations: " ++ exn_str e)) ;;
       ret None).

(** The default of every [item.get]: ['N/A'], or [['N/A']] where the
    value is joined. *)
Definition NA : PyValue := PyStr (str "N/A").
Definition NA_list : PyValue := PyList [NA].

(** The loop over [uploaded_images] of the Dashboard page; an
    [UploadedFile] is an object, hence true in [if uploaded_image]. *)
Fixpoint analyze_uploads (uploaded_images : list Upload)
    (all_catalogs : list PyValue) : M (list PyValue) :=
  match uploaded_images with
  | [] => ret all_catalogs
  | uploaded_image :: rest =>
      st_data (image uploaded_image (str "Uploaded Wardrobe Image") true) ;;
      all_catalogs <-
        with_ (spinner_enter (str "Analyzing Image...")) spinner_exit
          (catalog <- analyze_image uploaded_image ;;
           if truthy catalog
           then ret (all_catalogs ++ default [] catalog)
           else
             st (error (str "Could not get analysis, please try again for one of the images.")) ;;
             ret all_catalogs) ;;
      analyze_uploads rest all_catalogs
  end.

(** The loop that draws the catalog on the Dashboard page. *)
Fixpoint show_catalog (all_catalogs : list PyValue) : M unit :=
  match all_catalogs with
  | [] => ret tt
  | item :: rest =>
      description <- get item (str "description") NA ;;
      with_data (expander_enter (str "Item: " ++ py_str description) true)
            expander_exit
        (category <- get item (str "category") NA ;;
         st_data (markdown (str "**Category:** " ++ py_str category) false) ;;
         colors <- get item (str "colors") NA_list ;;
         colors <- join_value (str ", ") colors ;;
         st_data (markdown (str "**Colors:** " ++ colors) false) ;;
         style <- get item (str "style") NA_list ;;
         style <- join_value (str ", ") style ;;
         st_data (markdown (str "**Style:** " ++ style) false) ;;
         gender_type <- get item (str "gender_type") NA ;;
         st_data (markdown (str "**Gender Type:** " ++ py_str gender_type) false) ;;
         suitable_weather <- get item (str "suitable_weather") NA ;;
         st_data (markdown (str "**Suitable Weather:** " ++ py_str suitable_weather) false) ;;
         material <- get item (str "material") NA ;;
         st_data (markdown (str "**Material:** " ++ py_str material) false) ;;
         occasion <- get item (str "occasion") NA ;;
         st_data (markdown (str "**Occasion:** " ++ py_str occasion) false) ;;
         st (markdown (str "---") false)) ;;
      show_catalog rest
  end.

Definition dashboard : M unit :=
  st (header (str "Wardrobe Dashboard")) ;;
  image_source <- call (Radio (str "Choose Image Source")
                          [str "Upload"; str "Take a Picture"]) ;;
  uploaded_images <-
    (if decide (image_source = str "Upload") then
       files <- call (FileUploader (str "Upload wardrobe pictures")
                        [str "png"; str "jpg"; str "jpeg"]) ;;
       ret (Some files)
     else if decide (image_source = str "Take a Picture") then
       uploaded_image <- call (CameraInput (str "Take a picture of your wardrobe")) ;;
       ret (match uploaded_image with
            | Some f => Some [f]
            | None => None
            end)
     else ret None) ;;
  if truthy uploaded_images then
    all_catalogs <- analyze_uploads (default [] uploaded_images) [] ;;
    if truthy (Some all_catalogs) then
      session_set "catalog" (PyList all_catalogs) ;;
      st (subheader (str "Clothing Catalog:")) ;;
      show_catalog all_catalogs ;;
      st (success (str "Image Analysis Complete!"))
    else
      st (error (str "Could not get analysis, please try again for all images."))
  else ret tt.

(** The loop that writes the catalog part of the report. *)
Fixpoint report_catalog (catalog : list PyValue) (catalog_text : pystr)
  : M pystr :=
  match catalog with
  | [] => ret catalog_text
  | item :: rest =>
      description <- get item (str "description") NA ;;
      let catalog_text :=
        catalog_text ++ str "Description: " ++ py_str description ++ nl in
      category <- get item (str "category") NA ;;
      let catalog_text :=
        catalog_text ++ str "Category: " ++ py_str category ++ nl in
      colors <- get item (str "colors") NA_list ;;
      colors <- join_value (str ", ") colors ;;
      let catalog_text := catalog_text ++ str "Colors: " ++ colors ++ nl in
      style <- get item (str "style") NA_list ;;
      style <- join_value (str ", ") style ;;
      let catalog_text := catalog_text ++ str "Style: " ++ style ++ nl in
      gender_type <- get item (str "gender_type") NA ;;
      let catalog_text :=
        catalog_text ++ str "Gender Type: " ++ py_str gender_type ++ nl in
      suitable_weather <- get item (str "suitable_weather") NA ;;
      let catalog_text :=
        catalog_text ++ str "Suitable Weather: " ++ py_str suitable_weather ++ nl in
      material <- get item (str "material") NA ;;
      let catalog_text :=
        catalog_text ++ str "Material: " ++ py_str material ++ nl in
      occasion <- get item (str "occasion") NA ;;
      let catalog_text :=
        catalog_text ++ str "Occasion: " ++ py_str occasion ++ nl in
      let catalog_text := catalog_text ++ repeat_str (str "-") 30 ++ nl in
      report_catalog rest catalog_text
  end.

Definition next_step_html : pystr :=
  nl
  ++ str "                        <a href=" ++ dq
     ++ str "https://ai-fashion-assistant.streamlit.app/" ++ dq
     ++ str " target=" ++ dq ++ str "_blank" ++ dq ++ str ">" ++ nl
  ++ str "                            <button style=" ++ dq
     ++ str "background-color:#4CAF50; color:white; padding:10px 20px; border:none; border-radius:5px; cursor:pointer; text-decoration: none;"
     ++ dq ++ str ">" ++ nl
  ++ str "                                Go to Next Step" ++ nl
  ++ str "                            </button>" ++ nl
  ++ str "                         </a>" ++ nl
  ++ str "                        ".

Definition outfit_page : M unit :=
  st (header (str "Outfit Combinations")) ;;
  present <- session_has "catalog" ;;
  if (present : bool) then
    catalog <- session_get "catalog" ;;
    outfit_combinations <-
      with_ (spinner_enter (str "Generating Outfit Combinations..."))
            spinner_exit
        (generate_outfit_combinations catalog) ;;
    if truthy outfit_combinations then
      let outfit_combinations := default [] outfit_combinations in
      st (subheader (str "Outfit Suggestions:")) ;;
      st (markdown outfit_combinations false) ;;
      items <- iter catalog ;;
      catalog_text <- report_catalog items [] ;;
      let combined_text :=
        str "Clothing Catalog:" ++ nl ++ catalog_text ++ nl ++ nl
        ++ str "Outfit Combinations:" ++ nl ++ outfit_combinations in
      data <- lift (encode_utf8 combined_text) ;;
      st (download_button (str "Download Catalog and Outfits") data
            (str "wardrobe_report.txt") (str "text/plain")) ;;
      st (markdown next_step_html true)
    else
      st (error (str "Could not generate outfit combinations"))
  else
    st (warning (str "Please upload an image in the dashboard page to generate outfit combinations.")).

Definition main : M unit :=
  st (title (str "Wardrobe Styling App")) ;;
  st (sidebar_title (str "Navigation")) ;;
  page <- call (SidebarRadio (str "Go to")
                  [str "Dashboard"; str "Outfit Combinations"]) ;;
  if decide (page = str "Dashboard") then dashboard
  else if decide (page = str "Outfit Combinations") then outfit_page
  else ret tt.

End Functions.

(** The module level: one run of the script, from the first line to the
    call of [main] under [if __name__ == "__main__"]. *)
Definition script : M unit :=
  lib LoadDotenv ;;
  gemini_api_key <- call (Getenv (str "GOOGLE_API_KEY")) ;;
  (if negb (truthy gemini_api_key) then
     st (error (str "GEMINI_API_KEY is not set in the environment variables.")) ;;
     st_stop
   else ret tt) ;;
  lib (GenaiConfigure gemini_api_key) ;;
  model <- lib (GenerativeModel (str "gemini-1.5-flash")) ;;
  main model.

End Script.

Arguments str : simpl never.
Arguments strip : simpl never.
Arguments Re.search : simpl never.
Arguments analysis_prompt : simpl never.
Arguments outfit_prompt : simpl never.
Arguments next_step_html : simpl never.
Arguments repeat_str : simpl never.
Arguments encode_utf8 : simpl never.
Arguments analyze_image : simpl never.
Arguments main : simpl never.
Arguments dashboard : simpl never.
Arguments outfit_page : simpl never.
Arguments generate_outfit_combinations : simpl never.

(** ** The fields of a catalog record *)

(** The record as the specification describes it, to be compared with what
    the prompt, the Dashboard and the report of the source do with a
    record. *)

(** How the value of a field is shown: as it is, or joined with commas. *)
Inductive shape :=
| Scalar
| Joined.

(** The eight fields in the order of the source: key, label, shape. *)
Definition catalog_fields : list (pystr * pystr * shape) :=
  [ (str "description", str "Description", Scalar);
    (str "category", str "Category", Scalar);
    (str "colors", str "Colors", Joined);
    (str "style", str "Style", Joined);
    (str "gender_type", str "Gender Type", Scalar);
    (str "suitable_weather", str "Suitable Weather", Scalar);
    (str "material", str "Material", Scalar);
    (str "occasion", str "Occasion", Scalar) ].


(** The text of one field of the record [d]: the value under the key, or
    ['N/A'] when there is none. *)
Definition field_text (py_repr : PyValue -> pystr)
    (d : list (pystr * PyValue)) (f : pystr * pystr * shape)
  : Exn + pystr :=
  let '(key, _, shp) := f in
  match shp with
  | Scalar => inr (py_str py_repr (dict_get d key NA))
  | Joined => py_join (str ", ") (dict_get d key NA_list)
  end.

(** The texts of the given fields of [d], when all of them can be made. *)
Fixpoint field_texts (py_repr : PyValue -> pystr)
    (d : list (pystr * PyValue)) (fields : list (pystr * pystr * shape))
  : Exn + list pystr :=
  match fields with
  | [] => inr []
  | f :: fields' =>
      match field_text py_repr d f with
      | inl e => inl e
      | inr t =>
          match field_texts py_repr d fields' with
          | inl e => inl e
          | inr ts => inr (t :: ts)
          end
      end
  end.




(** ** What a log says about one call of [analyze_image] *)

(** The search found [m] in the stripped text of the reply. *)
Definition matched (log : list Entry) (m : pystr) : Prop :=
  exists text,
    In text (observe reply_text log)
    /\ Re.search json_array_re (strip text) = Some m.

(** The search found nothing in the stripped text of the reply. *)
Definition no_match (log : list Entry) : Prop :=
  exists text,
    In text (observe reply_text log)
    /\ Re.search json_array_re (strip text) = None.

(** The matched text was not JSON. *)
Definition parse_failed (log : list Entry) : Prop :=
  exists m msg,
    matched log m /\ In (m, inl (JSONDecodeError msg)) (observe loads_call log).

(** The matched text was JSON, but not a list. *)
Definition not_a_list (log : list Entry) : Prop :=
  exists m v,
    matched log m /\ In (m, inr v) (observe loads_call log)
    /\ forall l, v <> PyList l.

(** A library call raised. *)
Definition exception_raised (log : list Entry) : Prop :=
  exists e, In e (observe raised log).

(** The matched text was the JSON list [l]. *)
Definition parsed (log : list Entry) (l : list PyValue) : Prop :=
  exists m,
    matched log m /\ In (m, inr (PyList l)) (observe loads_call log).

(** ** Frames *)

(** An entry of a drawing call, drawn or refused. *)
Definition ui_entry (en : Entry) : Prop :=
  match en with
  | Logged (St _) _ | Logged (StData _) _ => True
  | _ => False
  end.

(** An entry of a call that draws a text. *)
Definition text_entry (en : Entry) : Prop :=
  ui_entry en /\ unshown en = None.

(** The calls that act within a session: on its page (drawing, or reading
    a widget), on a file the user gave (reading it), on the hosted model
    (a request, or reading its reply), or on a string ([json.loads]). The
    others set the process up: they read the environment, configure the
    client and build the model. *)
Definition within_session (en : Entry) : Prop :=
  match en with
  | Logged (St _) _ | Logged (StData _) _
  | Logged (SidebarRadio _ _) _ | Logged (Radio _ _) _
  | Logged (FileUploader _ _) _ | Logged (CameraInput _) _
  | Logged (ImageOpen _) _
  | Logged (GenerateContent _ _) _ | Logged (ResponseText _) _
  | Logged (JsonLoads _) _ => True
  | _ => False
  end.

(** An entry that can occur in [main]: it reads no environment variable,
    builds and configures nothing, if it is a call to [generate_content],
    it is one on [model], and it acts within the session. *)
Definition main_entry (model : Model) (en : Entry) : Prop :=
  env_read en = None /\ built_model en = None /\ configured en = None
  /\ (forall m c, generate_call en = Some (m, c) -> m = model)
  /\ within_session en.

(** An entry that can occur below the sidebar of [main]: it also picks no
    page. *)
Definition page_entry (model : Model) (en : Entry) : Prop :=
  page_chosen en = None /\ main_entry model en.

(** How [st.session_state] can change under [frame]: not at all, or at most
    under the key [catalog]. *)
Definition only_catalog (before after : gmap string PyValue) : Prop :=
  forall key, key <> "catalog"%string -> after !! key = before !! key.

(** Every run of [m] changes [st.session_state] within [R] and logs only
    entries that satisfy [P]. *)
Definition frame {World : Type} {A : Type}
    (R : relation (gmap string PyValue)) (P : Entry -> Prop)
    (m : @M World A) : Prop :=
  forall s, R (session s) (session (m s).1.2) /\ Forall P (m s).2.

(** ** A sample outside world *)

Module Demo.

(** What the user and the hosted model will do: the key in the environment,
    the page and the image source picked, the files given, and the texts of
    the model's next replies. *)
Record world := mkWorld {
  env_key : option pystr;
  chosen_page : pystr;
  image_source : pystr;
  files : list Upload;
  photo : option Upload;
  replies : list pystr
}.

(** [[{"category": "shirt"}]] *)
Definition one_record : pystr :=
  str "[{" ++ dq ++ str "category" ++ dq ++ str ": " ++ dq ++ str "shirt"
  ++ dq ++ str "}]".

(** [json.loads] on the few texts of the samples. *)
Definition loads (s : pystr) : Exn + PyValue :=
  if decide (s = str "[{}]") then inr (PyList [PyDict []])
  else if decide (s = str "[{}, 5, {}]")
  then inr (PyList [PyDict []; PyInt 5; PyDict []])
  else if decide (s = one_record)
  then inr (PyList [PyDict [(str "category", PyStr (str "shirt"))]])
  else if decide (s = str "[ {} ]") then inr (PyList [PyDict []])
  else inl (JSONDecodeError (str "Expecting value: line 1 column 1 (char 0)")).

(** What PIL says of the file 13, which is no picture. *)
Definition not_a_picture : Exn :=
  OtherError (str "cannot identify image file").

(** Streamlit and PIL refuse the file 13; Streamlit refuses a text that
    UTF-8 cannot encode. *)
Definition ext (X : Type) (e : Event X) (w : world) : X * world :=
  match e in Event X return X * world with
  | LoadDotenv => (inr tt, w)
  | Getenv _ => (env_key w, w)
  | GenaiConfigure _ => (inr tt, w)
  | GenerativeModel _ => (inr (GenerativeModelObj 1), w)
  | ImageOpen (UploadedFile id) =>
      (if N.eqb id 13 then inl not_a_picture else inr (ImageFile id), w)
  | GenerateContent _ _ =>
      (inr (ResponseObj (N.of_nat (length (replies w)))), w)
  | ResponseText _ =>
      match replies w with
      | text :: rest =>
          (inr text,
           mkWorld (env_key w) (chosen_page w) (image_source w) (files w)
             (photo w) rest)
      | [] => (inl (OtherError (str "the response has no text")), w)
      end
  | JsonLoads s => (loads s, w)
  | St _ => (tt, w)
  | StData (image (UploadedFile id) _ _) =>
      (if N.eqb id 13 then inl not_a_picture else inr tt, w)
  | StData (expander_enter body _) | StData (markdown body _) =>
      (match encode_utf8 body with
       | inl ex => inl ex
       | inr _ => inr tt
       end, w)
  | StData _ => (inr tt, w)
  | SidebarRadio _ _ => (chosen_page w, w)
  | Radio _ _ => (image_source w, w)
  | FileUploader _ _ => (files w, w)
  | CameraInput _ => (photo w, w)
  end.

(** [repr] of the values of the samples (no escapes in strings, and no
    digits of numbers). *)
Fixpoint repr (v : PyValue) : pystr :=
  match v with
  | PyNone => str "None"
  | PyBool true => str "True"
  | PyBool false => str "False"
  | PyInt _ => str "<int>"
  | PyFloat _ => str "<float>"
  | PyStr s => str "'" ++ s ++ str "'"
  | PyList l => str "[" ++ join (str ", ") (List.map repr l) ++ str "]"
  | PyDict d =>
      str "{"
      ++ join (str ", ")
           (List.map (fun kv => str "'" ++ fst kv ++ str "': " ++ repr (snd kv)) d)
      ++ str "}"
  end.

Definition model : Model := GenerativeModelObj 1.
Definition picture : Upload := UploadedFile 7.

(** A file that is no picture. *)
Definition document : Upload := UploadedFile 13.

(** A session on the Dashboard with one uploaded picture, the model about
    to give the replies [texts]. *)
Definition dashboard_session (session : gmap string PyValue)
    (texts : list pystr) : @State world :=
  mkState session
    (mkWorld (Some (str "secret")) (str "Dashboard") (str "Upload")
       [picture] None texts).

(** A session on the Dashboard with the picture and then the document
    uploaded. *)
Definition mixed_upload (session : gmap string PyValue)
    (texts : list pystr) : @State world :=
  mkState session
    (mkWorld (Some (str "secret")) (str "Dashboard") (str "Upload")
       [picture; document] None texts).

(** The same session on the Outfit Combinations page. *)
Definition outfit_session (session : gmap string PyValue)
    (texts : list pystr) : @State world :=
  mkState session
    (mkWorld (Some (str "secret")) (str "Outfit Combinations") (str "Upload")
       [] None texts).

End Demo.

(** ** More observers, and what they are used to say *)

(** The answer of [Image.open]. *)
Definition open_result (en : Entry) : option (Exn + Image) :=
  match en with
  | @Logged X e x =>
      match e in Event X return X -> option (Exn + Image) with
      | ImageOpen _ => fun x => Some x
      | _ => fun _ => None
      end x
  end.

(** The pictures the user gave: the files of the uploader, or the photo of
    the camera if one was taken. *)
Definition uploaded (en : Entry) : option (list Upload) :=
  match en with
  | @Logged X e x =>
      match e in Event X return X -> option (list Upload) with
      | FileUploader _ _ => fun files => Some files
      | CameraInput _ => fun photo => Some (option_list photo)
      | _ => fun _ => None
      end x
  end.

(** The file offered by a download button: its name and its bytes. *)
Definition download (en : Entry) : option (pystr * list N) :=
  match en with
  | Logged (St (download_button _ data file_name _)) _ =>
      Some (file_name, data)
  | _ => None
  end.

(** A record the Dashboard can draw: an object whose [colors] and [style]
    can be joined. *)
Definition renderable (py_repr : PyValue -> pystr) (item : PyValue) : Prop :=
  exists d texts,
    item = PyDict d /\ field_texts py_repr d catalog_fields = inr texts.

(** The only shapes [st.session_state] has under the key [catalog] when the
    script alone writes there: nothing, or a list that is not empty. *)
Definition catalog_ok (session : gmap string PyValue) : Prop :=
  match session !! "catalog"%string with
  | None => True
  | Some (PyList (_ :: _)) => True
  | Some _ => False
  end.


(** ** A sample outside world where things go wrong *)

Module Faulty.

(** What [Image.open], the model's reply and [json.loads] will answer. *)
Record world := mkWorld {
  open_answer : Exn + Image;
  reply : Exn + pystr;
  loads_answer : Exn + PyValue
}.

Definition ext (X : Type) (e : Event X) (w : world) : X * world :=
  match e in Event X return X * world with
  | LoadDotenv => (inr tt, w)
  | Getenv _ => (Some (str "secret"), w)
  | GenaiConfigure _ => (inr tt, w)
  | GenerativeModel _ => (inr (GenerativeModelObj 1), w)
  | ImageOpen _ => (open_answer w, w)
  | GenerateContent _ _ => (inr (ResponseObj 0), w)
  | ResponseText _ => (reply w, w)
  | JsonLoads _ => (loads_answer w, w)
  | St _ => (tt, w)
  | StData _ => (inr tt, w)
  | SidebarRadio _ _ => (str "Dashboard", w)
  | Radio _ _ => (str "Upload", w)
  | FileUploader _ _ => ([UploadedFile 7], w)
  | CameraInput _ => (None, w)
  end.

(** A picture that PIL cannot read. *)
Definition unreadable_picture : @State world :=
  mkState ∅
    (mkWorld (inl (OtherError (str "cannot identify image file")))
       (inr (str "[{}]")) (inr (PyList [PyDict []]))).

(** A reply with braces that are not JSON. *)
Definition broken_json : @State world :=
  mkState ∅
    (mkWorld (inr (ImageFile 7)) (inr (str "[{oops}]"))
       (inl (JSONDecodeError
               (str "Expecting property name enclosed in double quotes: line 1 column 3 (char 2)")))).

End Faulty.

(** * Properties *)

(** ** The matcher *)

Lemma match_here_sound p :
  forall s m,
    Re.match_here p s = Some m -> Re.lang p m /\ exists rest, s = m ++ rest.
Proof.
  induction p as [|[a|a] p IH]; intros s m.
  - cbn. intros [= <-]. split; [reflexivity | now exists s].
  - destruct s as [|c s]; cbn; [discriminate|].
    destruct (Re.atom_matches a c) eqn:Hc; [|discriminate].
    destruct (Re.match_here p s) as [m'|] eqn:Hm; [|discriminate].
    intros [= <-]. destruct (IH _ _ Hm) as [Hl [rest ->]].
    split; [exists c, m'; auto | now exists rest].
  - revert m. induction s as [|c s IHs]; intros m; cbn.
    + intros Hm. destruct (IH _ _ Hm) as [Hl Hrest].
      split; [exists [], m; auto | assumption].
    + assert (Hback : Re.match_here p (c :: s) = Some m ->
                Re.lang (Re.Star a :: p) m /\ exists rest, c :: s = m ++ rest).
      { intros Hm. destruct (IH _ _ Hm) as [Hl Hrest].
        split; [exists [], m; auto | assumption]. }
      destruct (Re.atom_matches a c) eqn:Hc; [|exact Hback].
      match goal with
      | |- match ?x with _ => _ end = _ -> _ => destruct x as [m'|] eqn:Hm
      end; [|exact Hback].
      intros [= <-]. destruct (IHs _ Hm) as [(cs & m'' & -> & Hcs & Hl) [rest ->]].
      split; [exists (c :: cs), m''; auto | now exists rest].
Qed.

Lemma match_here_star_fallback a p s m :
  Re.match_here p s = Some m ->
  exists m', Re.match_here (Re.Star a :: p) s = Some m'.
Proof.
  intros Hm. destruct s as [|c s]; cbn; [eauto|].
  destruct (Re.atom_matches a c); [|eauto].
  match goal with
  | |- exists _, match ?x with _ => _ end = _ => destruct x
  end; eauto.
Qed.

Lemma match_here_complete p :
  forall m rest,
    Re.lang p m -> exists m', Re.match_here p (m ++ rest) = Some m'.
Proof.
  induction p as [|[a|a] p IH]; intros m rest Hl.
  - cbn. eauto.
  - destruct Hl as (c & m' & -> & Hc & Hl). cbn. rewrite Hc.
    destruct (IH m' rest Hl) as [x ->]. cbn. eauto.
  - destruct Hl as (cs & m' & -> & Hcs & Hl).
    induction Hcs as [|c cs Hc _ IHcs].
    + destruct (IH m' rest Hl) as [x Hx].
      now apply match_here_star_fallback with (m := x).
    + destruct IHcs as [x Hx]. cbn in Hx |- *. rewrite Hc, Hx. eauto.
Qed.

(** What [re.search] returns is a piece of the text that the pattern
    stands for. *)
Lemma search_sound p s m :
  Re.search p s = Some m ->
  Re.lang p m /\ exists pre post, s = pre ++ m ++ post.
Proof.
  induction s as [|c s IH]; unfold Re.search; fold Re.search.
  - destruct (Re.match_here p []) as [m'|] eqn:Hm; [|discriminate].
    intros [= <-]. destruct (match_here_sound _ _ _ Hm) as [Hl [rest Hr]].
    split; [assumption | now exists [], rest].
  - destruct (Re.match_here p (c :: s)) as [m'|] eqn:Hm.
    + intros [= <-]. destruct (match_here_sound _ _ _ Hm) as [Hl [rest Hr]].
      split; [assumption | now exists [], rest].
    + intros Hs. destruct (IH Hs) as [Hl (pre & post & ->)].
      split; [assumption | now exists (c :: pre), post].
Qed.

(** [re.search] finds nothing exactly when no piece of the text is one the
    pattern stands for. *)
Lemma search_None_iff p s :
  Re.search p s = None <->
  forall pre m post, s = pre ++ m ++ post -> ~ Re.lang p m.
Proof.
  split.
  - induction s as [|c s IH]; unfold Re.search; fold Re.search;
      intros Hs pre m post Hsplit Hl.
    + destruct (match_here_complete p m post Hl) as [x Hx].
      destruct pre; [|discriminate]. cbn in Hsplit. rewrite <- Hsplit in Hx.
      now rewrite Hx in Hs.
    + destruct (Re.match_here p (c :: s)) eqn:Hm; [discriminate|].
      destruct pre as [|c' pre]; cbn in Hsplit.
      * destruct (match_here_complete p m post Hl) as [x Hx].
        rewrite <- Hsplit in Hx. congruence.
      * injection Hsplit as -> ->. now apply (IH Hs pre m post).
  - intros Hnone. destruct (Re.search p s) as [m|] eqn:Hs; [|reflexivity].
    destruct (search_sound _ _ _ Hs) as [Hl (pre & post & Hsplit)].
    now destruct (Hnone pre m post Hsplit).
Qed.

(** The texts [json_array_re] stands for: an opening bracket, blanks, a
    brace, anything, a brace, blanks, a closing bracket. *)
Lemma json_array_re_lang m :
  Re.lang json_array_re m <->
  exists blanks1 body blanks2,
    m = [91%N] ++ blanks1 ++ [123%N] ++ body ++ [125%N] ++ blanks2 ++ [93%N]
    /\ Forall (fun c => isspace c = true) blanks1
    /\ Forall (fun c => isspace c = true) blanks2.
Proof.
  cbn. split.
  - intros (c1 & m1 & -> & Hc1 & b1 & m2 & -> & Hb1 & c2 & m3 & -> & Hc2
            & body & m4 & -> & _ & c3 & m5 & -> & Hc3 & b2 & m6 & -> & Hb2
            & c4 & m7 & -> & Hc4 & ->).
    apply N.eqb_eq in Hc1, Hc2, Hc3, Hc4. subst.
    now exists b1, body, b2.
  - intros (b1 & body & b2 & -> & Hb1 & Hb2).
    exists 91%N, (b1 ++ [123%N] ++ body ++ [125%N] ++ b2 ++ [93%N]).
    repeat split. exists b1, ([123%N] ++ body ++ [125%N] ++ b2 ++ [93%N]).
    repeat split; [assumption|].
    exists 123%N, (body ++ [125%N] ++ b2 ++ [93%N]). repeat split.
    exists body, ([125%N] ++ b2 ++ [93%N]). repeat split.
    { now apply Forall_forall. }
    exists 125%N, (b2 ++ [93%N]). repeat split.
    exists b2, [93%N]. repeat split; [assumption|].
    now exists 93%N, [].
Qed.

(** X1. The search of [analyze_image] finds nothing exactly when the text
    has no opening bracket, blanks, opening brace, any text, closing brace,
    blanks and closing bracket in a row. *)
Theorem json_array_search_None_iff s :
  Re.search json_array_re s = None <->
  ~ exists pre blanks1 body blanks2 post,
      s = pre ++ [91%N] ++ blanks1 ++ [123%N] ++ body ++ [125%N] ++ blanks2
          ++ [93%N] ++ post
      /\ Forall (fun c => isspace c = true) blanks1
      /\ Forall (fun c => isspace c = true) blanks2.
Proof.
  rewrite search_None_iff. split.
  - intros Hnone (pre & b1 & body & b2 & post & -> & Hb1 & Hb2).
    apply (Hnone pre
             ([91%N] ++ b1 ++ [123%N] ++ body ++ [125%N] ++ b2 ++ [93%N])
             post).
    + now rewrite <- !app_assoc.
    + apply json_array_re_lang. now exists b1, body, b2.
  - intros Hnone pre m post -> (b1 & body & b2 & -> & Hb1 & Hb2)%json_array_re_lang.
    apply Hnone. exists pre, b1, body, b2, post.
    split; [|now split]. now rewrite <- !app_assoc.
Qed.

Section Properties.

Context {World : Type}.
Variable ext : forall X : Type, Event X -> World -> X * World.
Variable py_repr : PyValue -> pystr.

(** *** Reading a log *)

Lemma observe_app {A} (f : Entry -> option A) log1 log2 :
  observe f (log1 ++ log2) = observe f log1 ++ observe f log2.
Proof.
  induction log1 as [|en log1 IH]; [reflexivity|].
  cbn. destruct (f en); cbn; now rewrite IH.
Qed.

Lemma In_observe {A} (f : Entry -> option A) log y :
  In y (observe f log) <-> exists en, In en log /\ f en = Some y.
Proof.
  induction log as [|en log IH]; cbn.
  - split; [intros [] | intros (? & [] & _)].
  - destruct (f en) as [a|] eqn:Hf; cbn; rewrite IH; split.
    + intros [<- | (en' & ? & ?)]; eauto.
    + intros (en' & [<- | ?] & ?); [left; congruence | eauto].
    + intros (en' & ? & ?); eauto.
    + intros (en' & [<- | ?] & ?); [congruence | eauto].
Qed.

Lemma observe_quiet {A} (f : Entry -> option A) (P : Entry -> Prop) log :
  (forall en, P en -> f en = None) -> Forall P log -> observe f log = [].
Proof.
  intros Hf. induction 1 as [|en log Hen _ IH]; [reflexivity|].
  cbn. now rewrite (Hf en Hen).
Qed.

(** Unfold the monad, then follow the run one outside call at a time. *)
Ltac unfold_m :=
  unfold try_except, try_except_JSONDecodeError, with_, with_data, st_stop,
    st_data, lib, st, call, bind, ret, raise.

Ltac ext_step :=
  match goal with
  | |- context [ext ?X ?e ?w] =>
      let x := fresh "x" in
      let w' := fresh "w" in
      let E := fresh "E" in
      destruct (ext X e w) as [x w'] eqn:E; cbn
  end.

Ltac answer :=
  match goal with
  | x : (_ + _)%type |- _ => destruct x as [?ex | ?v]; cbn
  | x : unit |- _ => destruct x; cbn
  end.

(** All the ways one call of [analyze_image] can go. *)
Ltac analyze_cases :=
  unfold analyze_image; unfold_m; cbn;
  repeat (first [ answer | ext_step ]);
  try (destruct (Re.search json_array_re _) as [cleaned_json|] eqn:Hsearch; cbn);
  repeat (first [ answer | ext_step ]);
  try match goal with
      | ex : Exn |- context [JsonLoads] => destruct ex; cbn
      end;
  try match goal with
      | v : PyValue |- context [JsonLoads] => destruct v; cbn
      end;
  repeat (first [ answer | ext_step ]).

(** *** Frame rules *)

Section FrameRules.

Variable R : relation (gmap string PyValue).
Context `{!Reflexive R, !Transitive R}.
Variable P : Entry -> Prop.

Lemma frame_ret {A} (a : A) : frame R P (ret (World:=World) a).
Proof. intros s; cbn; auto. Qed.

Lemma frame_raise {A} e : frame R P (raise (World:=World) (A:=A) e).
Proof. intros s; cbn; auto. Qed.

Lemma frame_call {X} (e : Event X) :
  (forall x, P (Logged e x)) -> frame R P (call ext e).
Proof.
  intros H s. unfold call. destruct (ext X e (world s)); cbn; auto.
Qed.

Lemma frame_bind {A B} (m : @M World A) (k : A -> @M World B) :
  frame R P m -> (forall a, frame R P (k a)) -> frame R P (bind m k).
Proof.
  intros Hm Hk s. unfold bind.
  destruct (Hm s) as [Hs Hl].
  destruct (m s) as [[[a | e |] s1] log1]; cbn in *; auto.
  destruct (Hk a s1) as [Hs' Hl'].
  destruct (k a s1) as [[r s2] log2]; cbn in *.
  split; [etransitivity; eauto | apply Forall_app; auto].
Qed.

Lemma frame_lib {X} (e : Event (Exn + X)) :
  (forall x, P (Logged e x)) -> frame R P (lib ext e).
Proof.
  intros H. unfold lib. apply frame_bind.
  - now apply frame_call.
  - intros [ex | x]; [apply frame_raise | apply frame_ret].
Qed.

Lemma frame_st w : P (Logged (St w) tt) -> frame R P (st ext w).
Proof. intros H. apply frame_call. now intros []. Qed.

Lemma frame_st_data w :
  (forall x, P (Logged (StData w) x)) -> frame R P (st_data ext w).
Proof. apply frame_lib. Qed.

Lemma frame_try_except {A} (body : @M World A) handler :
  frame R P body -> (forall e, frame R P (handler e)) ->
  frame R P (try_except body handler).
Proof.
  intros Hb Hh s. unfold try_except.
  destruct (Hb s) as [Hs Hl].
  destruct (body s) as [[[a | e |] s1] log1]; cbn in *; auto.
  destruct (Hh e s1) as [Hs' Hl'].
  destruct (handler e s1) as [[r s2] log2]; cbn in *.
  split; [etransitivity; eauto | apply Forall_app; auto].
Qed.

Lemma frame_try_except_JSONDecodeError {A} (body : @M World A) handler :
  frame R P body -> (forall e, frame R P (handler e)) ->
  frame R P (try_except_JSONDecodeError body handler).
Proof.
  intros Hb Hh s. unfold try_except_JSONDecodeError.
  destruct (Hb s) as [Hs Hl].
  destruct (body s) as [[[a | [msg|msg|msg|msg|msg] |] s1] log1];
    cbn in *; auto.
  destruct (Hh (JSONDecodeError msg) s1) as [Hs' Hl'].
  destruct (handler (JSONDecodeError msg) s1) as [[r s2] log2]; cbn in *.
  split; [etransitivity; eauto | apply Forall_app; auto].
Qed.

Lemma frame_with {A} enter leave (body : @M World A) :
  P (Logged (St enter) tt) -> P (Logged (St leave) tt) ->
  frame R P body -> frame R P (with_ ext enter leave body).
Proof.
  intros He Hl Hb. unfold with_. apply frame_bind.
  - now apply frame_st.
  - intros _ s. destruct (Hb s) as [Hs Hlog].
    destruct (body s) as [[r s1] log1]; cbn in *.
    destruct (frame_st leave Hl s1) as [Hs' Hlog'].
    destruct (st ext leave s1) as [[r' s2] log2]; cbn in *.
    split; [etransitivity; eauto | apply Forall_app; auto].
Qed.

Lemma frame_with_data {A} enter leave (body : @M World A) :
  (forall x, P (Logged (StData enter) x)) -> P (Logged (St leave) tt) ->
  frame R P body -> frame R P (with_data ext enter leave body).
Proof.
  intros He Hl Hb. unfold with_data. apply frame_bind.
  - now apply frame_st_data.
  - intros _ s. destruct (Hb s) as [Hs Hlog].
    destruct (body s) as [[r s1] log1]; cbn in *.
    destruct (frame_st leave Hl s1) as [Hs' Hlog'].
    destruct (st ext leave s1) as [[r' s2] log2]; cbn in *.
    split; [etransitivity; eauto | apply Forall_app; auto].
Qed.

Lemma frame_lift {A} (r : Exn + A) : frame R P (lift (World:=World) r).
Proof. destruct r; [apply frame_raise | apply frame_ret]. Qed.

Lemma frame_session_has key : frame R P (session_has (World:=World) key).
Proof. intros s; cbn; auto. Qed.

Lemma frame_session_get key : frame R P (session_get (World:=World) key).
Proof. intros s; unfold session_get; destruct (session s !! key); cbn; auto. Qed.

End FrameRules.

Lemma frame_weaken {A} (R : relation _) (P Q : Entry -> Prop)
    (m : @M World A) :
  (forall en, P en -> Q en) -> frame R P m -> frame R Q m.
Proof.
  intros HPQ Hm s. destruct (Hm s) as [Hs Hl]. split; [assumption|].
  eapply Forall_impl; eauto.
Qed.

Lemma frame_session_set P key v :
  key = "catalog"%string ->
  frame only_catalog P (session_set (World:=World) key v).
Proof.
  intros -> s; cbn. split; [|constructor].
  intros k Hk. now rewrite lookup_insert_ne.
Qed.

#[local] Instance only_catalog_refl : Reflexive only_catalog.
Proof. intros m k _. reflexivity. Qed.

#[local] Instance only_catalog_trans : Transitive only_catalog.
Proof. intros a b c Hab Hbc k Hk. rewrite Hbc, Hab; auto. Qed.

Lemma frame_eq_only_catalog {A} P (m : @M World A) :
  frame eq P m -> frame only_catalog P m.
Proof.
  intros Hm s. destruct (Hm s) as [Hs Hl]. split; [|assumption].
  rewrite <- Hs. reflexivity.
Qed.

Lemma ui_entry_St w x : ui_entry (Logged (St w) x).
Proof. exact I. Qed.

Lemma ui_entry_StData w x : ui_entry (Logged (StData w) x).
Proof. exact I. Qed.

Lemma ui_entry_page_entry model en : ui_entry en -> page_entry model en.
Proof.
  destruct en as [X e x]. intros Hui.
  destruct e; try contradiction; repeat split; discriminate.
Qed.

Lemma page_entry_St model w x : page_entry model (Logged (St w) x).
Proof. apply ui_entry_page_entry, ui_entry_St. Qed.

Lemma page_entry_StData model w x : page_entry model (Logged (StData w) x).
Proof. apply ui_entry_page_entry, ui_entry_StData. Qed.

Lemma page_entry_main_entry model en : page_entry model en -> main_entry model en.
Proof. now intros [_ H]. Qed.

(** Entries of the calls the pages make. *)
Ltac entry_ok :=
  intros;
  first [ exact I
        | apply page_entry_St
        | apply page_entry_StData
        | split; [exact I|]; try reflexivity;
          match goal with
          | x : (_ + _)%type |- _ => now destruct x
          end
        | unfold page_entry, main_entry; cbn; repeat split; intros;
          first [ discriminate | congruence ] ].

(** One rule of the frame calculus, chosen by the shape of the program. *)
Ltac frame_step :=
  first
    [ apply frame_ret | apply frame_raise
    | apply frame_st; [typeclasses eauto | entry_ok]
    | apply frame_st_data; [typeclasses eauto .. | entry_ok]
    | apply frame_lib; [typeclasses eauto .. | entry_ok]
    | apply frame_call; [typeclasses eauto | entry_ok]
    | apply frame_lift
    | apply frame_session_has | apply frame_session_get
    | apply frame_session_set; reflexivity
    | apply frame_with; [typeclasses eauto | typeclasses eauto | entry_ok | entry_ok |]
    | apply frame_with_data;
      [typeclasses eauto | typeclasses eauto | entry_ok | entry_ok |]
    | apply frame_try_except_JSONDecodeError
    | apply frame_try_except
    | apply frame_bind
    | match goal with
      | |- frame _ _ (match ?x with _ => _ end) => destruct x
      | |- frame _ _ (if ?b then _ else _) => destruct b
      | |- forall _, _ => intro
      | |- Reflexive _ => typeclasses eauto
      | |- Transitive _ => typeclasses eauto
      end ].

Lemma frame_analyze_image model image :
  frame eq (page_entry model) (analyze_image ext model image).
Proof. unfold analyze_image; cbv zeta. repeat frame_step. Qed.

Lemma frame_generate_outfit_combinations model catalog :
  frame eq (page_entry model)
    (generate_outfit_combinations ext py_repr model catalog).
Proof. unfold generate_outfit_combinations; cbv zeta. repeat frame_step. Qed.

Lemma frame_analyze_uploads model uploaded_images :
  forall all_catalogs,
    frame eq (page_entry model)
      (analyze_uploads ext model uploaded_images all_catalogs).
Proof.
  induction uploaded_images as [|uploaded_image rest IH]; intros all_catalogs;
    cbn [analyze_uploads].
  - apply frame_ret. typeclasses eauto.
  - apply frame_bind; [typeclasses eauto | frame_step |]. intros _.
    apply frame_bind; [typeclasses eauto | | intros; apply IH].
    apply frame_with; [typeclasses eauto .. | entry_ok | entry_ok |].
    apply frame_bind; [typeclasses eauto | apply frame_analyze_image |].
    repeat frame_step.
Qed.

Lemma frame_show_catalog all_catalogs :
  frame eq text_entry (show_catalog ext py_repr all_catalogs).
Proof.
  induction all_catalogs as [|item rest IH]; cbn [show_catalog].
  - apply frame_ret. typeclasses eauto.
  - apply frame_bind; [typeclasses eauto | apply frame_lift; typeclasses eauto |].
    intros description.
    apply frame_bind; [typeclasses eauto | | intros; apply IH].
    repeat frame_step.
Qed.

(** The report is written without a call to the outside. *)
Lemma frame_report_catalog catalog :
  forall catalog_text,
    frame eq (fun _ => False)
      (report_catalog (World:=World) py_repr catalog catalog_text).
Proof.
  induction catalog as [|item rest IH]; intros catalog_text;
    cbn [report_catalog].
  - apply frame_ret. typeclasses eauto.
  - repeat first [ apply IH | frame_step ].
Qed.

(** Closing a leaf: compute the observers on the log, which is a list of
    known entries there, and split what is left. *)
Ltac leaf :=
  cbn in *; intuition (subst; try congruence; eauto).

(** C1. The JSON of a reply is taken by one search for
    [\[\s*\{.*\}\s*\]] over the stripped text of the reply. When the search
    finds nothing, [analyze_image] shows the extraction error and returns
    [None] without calling [json.loads]; when it finds something, the match
    is the one string ever given to [json.loads]. *)
Theorem analyze_image_single_regex_extraction
    model image s r s' log text :
  analyze_image ext model image s = (r, s', log) ->
  In text (observe reply_text log) ->
  match Re.search json_array_re (strip text) with
  | None =>
      r = Ok None
      /\ observe drawn log =
         [error (str "Failed to extract JSON from the response. Please check the format.")]
      /\ observe loads_call log = []
  | Some cleaned_json =>
      List.map fst (observe loads_call log) = [cleaned_json]
  end.
Proof.
  revert r s' log text.
  analyze_cases; intros r s' log text Hrun Htext;
    injection Hrun as <- <- <-; cbn in Htext;
    try contradiction;
    destruct Htext as [<- | []]; rewrite Hsearch; leaf.
Qed.

Ltac log_facts :=
  unfold no_match, parse_failed, not_a_list, exception_raised, parsed,
    matched in *;
  repeat match goal with
    | H : exists _, _ |- _ => destruct H
    | H : _ /\ _ |- _ => destruct H
    | H : _ \/ _ |- _ => destruct H
    | H : In _ _ |- _ => cbn in H
    | H : False |- _ => destruct H
    | H : (_, _) = (_, _) |- _ => injection H as ? ?
    | H : inl _ = inl _ |- _ => injection H as ?
    | H : inr _ = inr _ |- _ => injection H as ?
    end;
  subst; try congruence.

(** C2. [analyze_image] always returns, and it returns [None] exactly when
    the search found no match in the reply, or the match failed to parse as
    JSON, or it parsed to something that is not a list, or a library call
    raised; otherwise it returns the list the match parsed to. *)
Theorem analyze_image_None_iff model image s :
  exists v s' log,
    analyze_image ext model image s = (Ok v, s', log)
    /\ (v = None <->
        no_match log \/ parse_failed log \/ not_a_list log
        \/ exception_raised log)
    /\ (v <> None -> exists l, parsed log l /\ v = Some l).
Proof.
  analyze_cases; do 3 eexists; (split; [reflexivity|]); split.
  all: try (intros Hv; first [contradiction | congruence]).
  all: try (split; [intros _ | reflexivity]).
  all: try solve [do 3 right; eexists; cbn; left; reflexivity].
  all: try solve [left; eexists; split; [cbn; left; reflexivity | eassumption]].
  all: try solve [
    do 2 right; left; do 2 eexists;
    split; [eexists; split; [cbn; left; reflexivity | eassumption] |];
    split; [cbn; left; reflexivity | discriminate] ].
  - split; [discriminate | intros H; exfalso; log_facts].
  - intros _. eexists. split; [|reflexivity].
    eexists. split; [eexists; split; [cbn; left; reflexivity | eassumption] |].
    cbn; left; reflexivity.
Qed.

(** C3. When the match parses as a JSON array, [analyze_image] returns
    that array as it is, whatever its elements are. *)
Theorem analyze_image_returns_array_unchanged
    model image s r s' log text cleaned_json l :
  analyze_image ext model image s = (r, s', log) ->
  In text (observe reply_text log) ->
  Re.search json_array_re (strip text) = Some cleaned_json ->
  In (cleaned_json, inr (PyList l)) (observe loads_call log) ->
  r = Ok (Some l).
Proof.
  revert r s' log text cleaned_json l.
  analyze_cases; intros r s' log text m items Hrun Htext Hm Hloads;
    injection Hrun as <- <- <-; log_facts.
Qed.

(** *** Summaries of the two functions and of the upload loop *)

Lemma analyze_image_summary model image s :
  exists v w' log,
    analyze_image ext model image s = (Ok v, mkState (session s) w', log)
    /\ observe parsed_list log = option_list v
    /\ observe opened log = [image]
    /\ length (observe generate_call log) <= 1.
Proof.
  analyze_cases; do 3 eexists; (split; [reflexivity|]); cbn; auto.
Qed.

Lemma generate_outfit_combinations_summary model catalog s :
  exists v w' log,
    generate_outfit_combinations ext py_repr model catalog s
    = (Ok v, mkState (session s) w', log)
    /\ observe generate_call log = [(model, Text (outfit_prompt py_repr catalog))]
    /\ observe reply_text log = option_list v
    /\ observe parsed_list log = [].
Proof.
  unfold generate_outfit_combinations; unfold_m; cbn.
  repeat (first [ answer | ext_step ]);
    do 3 eexists; (split; [reflexivity|]); cbn; auto.
Qed.

(** No picture is left unshown where no call was refused. *)
Lemma unshown_refused log :
  observe refused log = [] -> observe unshown log = [].
Proof.
  induction log as [|en log IH]; [reflexivity|]. cbn. unfold unshown at 1.
  destruct (refused en); [discriminate | exact IH].
Qed.

Lemma analyze_image_facts model image s :
  exists v w' log,
    analyze_image ext model image s = (Ok v, mkState (session s) w', log)
    /\ observe parsed_list log = option_list v
    /\ observe opened log = [image]
    /\ length (observe generate_call log) <= 1
    /\ length (observe loads_call log) <= length (observe generate_call log)
    /\ observe uploaded log = []
    /\ observe refused log = []
    /\ observe unshown log = [].
Proof.
  analyze_cases; do 3 eexists; (split; [reflexivity|]); cbn; auto 10.
Qed.

(** The loop over the pictures. It ends at the first picture [st.image]
    refuses, with the exception of that call; every picture before that one
    was analysed, and each analysis that gave nothing left its error. *)
Lemma analyze_uploads_summary model uploaded_images :
  forall all_catalogs s,
    exists r w' log,
      analyze_uploads ext model uploaded_images all_catalogs s
      = (r, mkState (session s) w', log)
      /\ observe uploaded log = []
      /\ length (observe generate_call log) <= length (observe opened log)
      /\ length (observe loads_call log) <= length (observe generate_call log)
      /\ (concat (observe parsed_list log) = [] -> observe opened log <> [] ->
          In (error (str "Could not get analysis, please try again for one of the images."))
            (observe drawn log))
      /\ match observe refused log with
         | [] =>
             r = Ok (all_catalogs ++ concat (observe parsed_list log))
             /\ uploaded_images = observe opened log
             /\ observe unshown log = []
         | (w, e) :: others =>
             r = Raise e /\ others = []
             /\ exists f rest,
                  observe unshown log = [f]
                  /\ uploaded_images = observe opened log ++ f :: rest
         end.
Proof.
  induction uploaded_images as [|uploaded_image rest IH]; intros all_catalogs s.
  - destruct s. do 3 eexists. split; [reflexivity|]. cbn.
    rewrite app_nil_r. repeat split; auto;
      try (intros _ H; now contradiction H).
  - cbn [analyze_uploads]; unfold_m; cbn.
    ext_step. answer.
    { do 3 eexists. split; [reflexivity|]. cbn.
      repeat split; auto; try (intros _ H; now contradiction H).
      exists uploaded_image, rest. auto. }
    answer. repeat (first [ answer | ext_step ]).
    match goal with
    | |- context [analyze_image ext model ?i ?st] =>
        destruct (analyze_image_facts model i st)
          as (v & w' & log & -> & Hparsed & Hopened & Hgen & Hloads & Hup
              & Href & Hun)
    end.
    destruct v as [[|x l]|]; cbn; repeat (first [ answer | ext_step ]).
    all: match goal with
         | |- context [analyze_uploads _ _ _ ?acc ?st] =>
             destruct (IH acc st)
               as (r' & w'' & log' & -> & Hup' & Hgen' & Hloads' & Herr'
                   & Hend')
         end.
    all: do 3 eexists; (split; [reflexivity|]); cbn.
    all: repeat (rewrite !observe_app; cbn).
    all: rewrite ?length_app, Hparsed, Hopened, Hup, Hup', Href, Hun; cbn.
    all: split; [reflexivity|]; split; [lia|]; split; [lia|]; split;
      [ first [ solve [intros _ _; do 2 right; rewrite !in_app_iff; cbn;
                       auto 10]
              | intros H; discriminate H ]
      | ].
    all: destruct (observe refused log') as [|[widget e] others].
    all: try (destruct Hend' as (-> & -> & ->); rewrite ?app_nil_r, <- ?app_assoc;
              auto; fail).
    all: destruct Hend' as (-> & -> & f & rest' & -> & ->);
      repeat split; auto; exists f, rest'; auto.
Qed.

(** *** The frame of [main] *)

Lemma frame_page_entry_only_catalog {A} model (Q : Entry -> Prop)
    (m : @M World A) :
  (forall en, Q en -> page_entry model en) ->
  frame eq Q m -> frame only_catalog (page_entry model) m.
Proof.
  intros HQ Hm. now apply frame_eq_only_catalog, (frame_weaken eq Q).
Qed.

Lemma frame_dashboard model :
  frame only_catalog (page_entry model) (dashboard ext py_repr model).
Proof.
  unfold dashboard.
  repeat first
    [ apply (frame_page_entry_only_catalog model (page_entry model));
      [ auto | apply frame_analyze_uploads ]
    | apply (frame_page_entry_only_catalog model text_entry);
      [ intros en [Hui _]; now apply ui_entry_page_entry
      | apply frame_show_catalog ]
    | frame_step ].
Qed.

(** The Outfit Combinations page writes nothing into [st.session_state]. *)
Lemma frame_outfit_page model :
  frame eq (page_entry model) (outfit_page ext py_repr model).
Proof.
  unfold outfit_page; cbv zeta.
  repeat first
    [ apply frame_generate_outfit_combinations
    | apply (frame_weaken eq (fun _ => False));
      [ intros ? [] | apply frame_report_catalog ]
    | frame_step ].
Qed.

Lemma frame_main model :
  frame only_catalog (main_entry model) (main ext py_repr model).
Proof.
  unfold main.
  repeat first
    [ apply (frame_weaken only_catalog (page_entry model));
      [ apply page_entry_main_entry | apply frame_dashboard ]
    | apply (frame_weaken only_catalog (page_entry model));
      [ apply page_entry_main_entry
      | apply frame_eq_only_catalog, frame_outfit_page ]
    | frame_step ].
Qed.

(** X2. Whatever happens in a run of [main], the only key of
    [st.session_state] it can change is [catalog]. *)
Theorem main_writes_only_catalog model s :
  only_catalog (session s) (session (main ext py_repr model s).1.2).
Proof. apply (frame_main model s). Qed.

(** *** Reading a framed log *)

Lemma main_entry_targets model log m c :
  Forall (main_entry model) log -> In (m, c) (observe generate_call log) ->
  m = model.
Proof.
  intros Hlog (en & Hen & Hcall)%In_observe.
  rewrite Forall_forall in Hlog.
  apply list_elem_of_In, Hlog in Hen. now apply Hen in Hcall.
Qed.

Lemma main_entry_quiet model log :
  Forall (main_entry model) log ->
  observe env_read log = [] /\ observe built_model log = []
  /\ observe configured log = [].
Proof.
  intros H. repeat split; eapply observe_quiet; eauto;
    now intros en (? & ? & ? & ? & ?).
Qed.

(** C5. One call of [analyze_image] makes at most one call to
    [generate_content], one call of [generate_outfit_combinations] makes
    exactly one, whose prompt contains the catalog it was given; both call
    the [model] of the module, and in a run of the script every such call is
    on the one model the script built. *)
Theorem one_generate_content_call_on_the_same_model :
  (forall model image s,
      let log := (analyze_image ext model image s).2 in
      length (observe generate_call log) <= 1
      /\ forall m c, In (m, c) (observe generate_call log) -> m = model)
  /\ (forall model catalog s,
        let log := (generate_outfit_combinations ext py_repr model catalog s).2 in
        observe generate_call log
        = [(model, Text (outfit_prompt py_repr catalog))]
        /\ contains (py_str py_repr catalog) (outfit_prompt py_repr catalog))
  /\ (forall s m c,
        let log := (script ext py_repr s).2 in
        In (m, c) (observe generate_call log) ->
        observe built_model log = [(str "gemini-1.5-flash", inr m)]).
Proof.
  split; [|split].
  - intros model image s log. subst log.
    destruct (analyze_image_summary model image s)
      as (v & w' & log & Hrun & _ & _ & Hlen).
    destruct (frame_analyze_image model image s) as [_ Hframe].
    rewrite Hrun in *; cbn in *. split; [assumption|].
    intros m c. apply main_entry_targets.
    eapply Forall_impl; [eassumption | apply page_entry_main_entry].
  - intros model catalog s log. subst log.
    destruct (generate_outfit_combinations_summary model catalog s)
      as (v & w' & log & -> & Hcalls & _). cbn. split; [assumption|].
    unfold outfit_prompt.
    exists (str "Given the following clothing catalog, generate at least three distinct outfit combinations. Provide a short description for each outfit."
            ++ nl ++ nl ++ str "        Catalog: "),
           (nl ++ str "    ").
    now rewrite <- !app_assoc.
  - intros s m c. unfold script; unfold_m; cbn.
    repeat (first [ answer | ext_step ]); try contradiction.
    all: match goal with
         | x : option pystr |- _ => destruct x as [[|c0 key]|]; cbn
         end.
    all: repeat (first [ answer | ext_step ]); try contradiction.
    match goal with
    | |- context [main ext py_repr ?mo ?st] =>
        destruct (frame_main mo st) as [_ Hframe];
        destruct (main ext py_repr mo st) as [[r s1] log1]
    end.
    cbn in *. intros Hin.
    apply main_entry_quiet in Hframe as Hquiet.
    destruct Hquiet as (_ & -> & _).
    f_equal. f_equal. f_equal. symmetry. eapply main_entry_targets; eauto.
Qed.

(** *** The fields read from a record *)








(** Writing the report ends well exactly when every record can be drawn;
    otherwise it raises. *)
Lemma report_catalog_outcome catalog :
  forall catalog_text s,
    (Forall (renderable py_repr) catalog
     /\ exists text,
         (report_catalog (World:=World) py_repr catalog catalog_text s).1.1
         = Ok text)
    \/ (~ Forall (renderable py_repr) catalog
        /\ exists e,
            (report_catalog (World:=World) py_repr catalog catalog_text s).1.1
            = Raise e).
Proof.
  induction catalog as [|item rest IH]; intros catalog_text s.
  - left. split; [constructor | cbn; eauto].
  - assert (Hnot : forall P : Prop,
              ~ renderable py_repr item ->
              P -> ~ Forall (renderable py_repr) (item :: rest) /\ P).
    { intros P Hitem HP. split; [|exact HP].
      intros Hall. now inversion Hall. }
    cbn [report_catalog]. unfold get, join_value; unfold_m.
    destruct item as [| | | | | |d]; cbn;
      try (right; apply Hnot; [intros (d & texts & [=] & _) | eauto]; fail).
    destruct (py_join (str ", ") (dict_get d (str "colors") NA_list))
      as [e|colors] eqn:Hcolors; cbn.
    { right. apply Hnot; [|eauto].
      intros (d' & texts & [= <-] & Htexts). cbn in Htexts.
      now rewrite Hcolors in Htexts. }
    destruct (py_join (str ", ") (dict_get d (str "style") NA_list))
      as [e|style] eqn:Hstyle; cbn.
    { right. apply Hnot; [|eauto].
      intros (d' & texts & [= <-] & Htexts). cbn in Htexts.
      now rewrite Hcolors, Hstyle in Htexts. }
    assert (Hitem : renderable py_repr (PyDict d)).
    { eexists d, _. split; [reflexivity|]. cbn.
      rewrite Hcolors, Hstyle. reflexivity. }
    match goal with
    | |- context [report_catalog _ rest ?t ?st] =>
        destruct (IH t st) as [[Hall [text Hok]] | [Hall [e Hraise]]];
        destruct (report_catalog py_repr rest t st) as [[r1 s1] l1]
    end; cbn in *; subst r1.
    + left. split; [now constructor | eauto].
    + right. split; [|eauto]. intros Hall'. now inversion Hall'.
Qed.

(** Drawing the catalog ends well exactly when every record can be drawn
    and Streamlit refuses no text; otherwise it raises. *)
Lemma show_catalog_outcome all_catalogs :
  forall s,
    (Forall (renderable py_repr) all_catalogs
     /\ observe refused (show_catalog ext py_repr all_catalogs s).2 = []
     /\ (show_catalog ext py_repr all_catalogs s).1.1 = Ok tt)
    \/ ((~ Forall (renderable py_repr) all_catalogs
         \/ observe refused (show_catalog ext py_repr all_catalogs s).2 <> [])
        /\ exists e, (show_catalog ext py_repr all_catalogs s).1.1 = Raise e).
Proof.
  induction all_catalogs as [|item rest IH]; intros s.
  - left. repeat split; constructor.
  - assert (Hnot : forall P : Prop,
              ~ renderable py_repr item ->
              P ->
              (~ Forall (renderable py_repr) (item :: rest) \/ False) /\ P).
    { intros P Hitem HP. split; [|exact HP].
      left. intros Hall. now inversion Hall. }
    cbn [show_catalog]. unfold get, join_value; unfold_m.
    destruct item as [| | | | | |d]; cbn;
      try (right; split; [left; intros Hall; inversion Hall as [|? ? Hitem];
                          now destruct Hitem as (d & texts & [=] & _)
                         | eauto]; fail).
    destruct (py_join (str ", ") (dict_get d (str "colors") NA_list))
      as [e|colors] eqn:Hcolors; cbn.
    { repeat (first [ answer | ext_step ]).
      all: right; (split; [|eauto]).
      1, 2: right; cbn; discriminate.
      left. intros Hall. inversion Hall as [|? ? Hitem].
      destruct Hitem as (d' & texts & [= <-] & Htexts). cbn in Htexts.
      now rewrite Hcolors in Htexts. }
    destruct (py_join (str ", ") (dict_get d (str "style") NA_list))
      as [e|style] eqn:Hstyle; cbn.
    { repeat (first [ answer | ext_step ]).
      all: right; (split; [|eauto]).
      1, 2, 3: right; cbn; discriminate.
      left. intros Hall. inversion Hall as [|? ? Hitem].
      destruct Hitem as (d' & texts & [= <-] & Htexts). cbn in Htexts.
      now rewrite Hcolors, Hstyle in Htexts. }
    assert (Hitem : renderable py_repr (PyDict d)).
    { eexists d, _. split; [reflexivity|]. cbn.
      rewrite Hcolors, Hstyle. reflexivity. }
    repeat (first [ answer | ext_step ]).
    all: try (right; split; [right; cbn; discriminate | eauto]; fail).
    match goal with
    | |- context [show_catalog _ _ rest ?st] =>
        destruct (IH st) as [(Hall & Href & Hok) | [Hall [e Hraise]]];
        destruct (show_catalog ext py_repr rest st) as [[r1 s1] l1]
    end; cbn in *; subst r1.
    + left. split; [now constructor|]. split; [|reflexivity].
      repeat (rewrite observe_app; cbn). exact Href.
    + right. split; [|eauto].
      destruct Hall as [Hall | Href]; [left | right].
      * intros Hall'. now inversion Hall'.
      * repeat (rewrite observe_app; cbn). exact Href.
Qed.



(** *** The pages *)

(** From here on the three loops are used through their lemmas only. *)
Local Opaque analyze_uploads show_catalog report_catalog.

(** A run of [main] is the title, the sidebar, and then the page that was
    picked. *)
Lemma main_inv model s r s' log :
  main ext py_repr model s = (r, s', log) ->
  exists page w rest,
    observe page_chosen log = [page]
    /\ observe drawn log
       = title (str "Wardrobe Styling App")
         :: sidebar_title (str "Navigation") :: observe drawn rest
    /\ observe generate_call log = observe generate_call rest
    /\ observe parsed_list log = observe parsed_list rest
    /\ observe opened log = observe opened rest
    /\ (if decide (page = str "Dashboard")
        then dashboard ext py_repr model
        else if decide (page = str "Outfit Combinations")
             then outfit_page ext py_repr model
             else ret tt) (mkState (session s) w)
       = (r, s', rest).
Proof.
  unfold main; unfold_m.
  repeat (first [ answer | ext_step ]).
  match goal with
  | |- context [SidebarRadio] => idtac
  end.
  match goal with
  | |- context [(if decide (?page = ?d) then ?a else ?b) ?st] =>
      set (page_run := (if decide (page = d) then a else b) st);
      assert (Hquiet : observe page_chosen page_run.2 = []);
      [ | destruct page_run as [[r1 s1] rest] eqn:Hrun ]
  end.
  - subst page_run. repeat case_decide.
    + destruct (frame_dashboard model (mkState (session s) w1)) as [_ Hf].
      eapply observe_quiet; [|exact Hf]. now intros en [? _].
    + destruct (frame_outfit_page model (mkState (session s) w1)) as [_ Hf].
      eapply observe_quiet; [|exact Hf]. now intros en [? _].
    + reflexivity.
  - cbn in *. intros [= <- <- <-].
    do 2 eexists. exists rest. cbn. rewrite Hquiet.
    repeat split; try reflexivity. exact Hrun.
Qed.

(** What drawing texts leaves out of a log. *)
Lemma text_entry_quiet log :
  Forall text_entry log ->
  observe parsed_list log = [] /\ observe opened log = []
  /\ observe generate_call log = [] /\ observe loads_call log = []
  /\ observe uploaded log = [] /\ observe unshown log = [].
Proof.
  intros H. repeat split; eapply observe_quiet; eauto;
    intros [X e x] [Hui Hun]; try assumption;
    destruct e; try contradiction; reflexivity.
Qed.

(** Compute an observer over a log made of known entries and sublogs. *)
Ltac observe_log := cbn; repeat (rewrite observe_app; cbn).

Lemma page_names_differ : str "Outfit Combinations" <> str "Dashboard".
Proof. intros H. vm_compute in H. discriminate. Qed.

(** A run of [main]: the title, the sidebar, the pick of a page, and the
    run of that page. *)
Lemma main_log model s r s' log :
  main ext py_repr model s = (r, s', log) ->
  exists page w rest,
    log = Logged (St (title (str "Wardrobe Styling App"))) tt
          :: Logged (St (sidebar_title (str "Navigation"))) tt
          :: Logged (SidebarRadio (str "Go to")
                       [str "Dashboard"; str "Outfit Combinations"]) page
          :: rest
    /\ observe page_chosen rest = []
    /\ (if decide (page = str "Dashboard")
        then dashboard ext py_repr model
        else if decide (page = str "Outfit Combinations")
             then outfit_page ext py_repr model
             else ret tt) (mkState (session s) w)
       = (r, s', rest).
Proof.
  unfold main; unfold_m.
  repeat (first [ answer | ext_step ]).
  match goal with
  | |- context [(if decide (?page = ?d) then ?a else ?b) ?st] =>
      set (page_run := (if decide (page = d) then a else b) st);
      assert (Hquiet : observe page_chosen page_run.2 = []);
      [ | destruct page_run as [[r1 s1] rest] eqn:Hrun ]
  end.
  - subst page_run. repeat case_decide.
    + destruct (frame_dashboard model (mkState (session s) w1)) as [_ Hf].
      eapply observe_quiet; [|exact Hf]. now intros en [? _].
    + destruct (frame_outfit_page model (mkState (session s) w1)) as [_ Hf].
      eapply observe_quiet; [|exact Hf]. now intros en [? _].
    + reflexivity.
  - cbn in *. intros [= <- <- <-]. eauto 10.
Qed.

Lemma main_log_dashboard model s r s' log :
  main ext py_repr model s = (r, s', log) ->
  In (str "Dashboard") (observe page_chosen log) ->
  exists w rest,
    log = Logged (St (title (str "Wardrobe Styling App"))) tt
          :: Logged (St (sidebar_title (str "Navigation"))) tt
          :: Logged (SidebarRadio (str "Go to")
                       [str "Dashboard"; str "Outfit Combinations"])
               (str "Dashboard")
          :: rest
    /\ dashboard ext py_repr model (mkState (session s) w) = (r, s', rest).
Proof.
  intros (page & w & rest & -> & Hq & Hrun)%main_log Hpage.
  cbn in Hpage. rewrite Hq in Hpage. destruct Hpage as [-> | []].
  rewrite decide_True in Hrun by reflexivity. eauto.
Qed.

Lemma main_log_outfit_page model s r s' log :
  main ext py_repr model s = (r, s', log) ->
  In (str "Outfit Combinations") (observe page_chosen log) ->
  exists w rest,
    log = Logged (St (title (str "Wardrobe Styling App"))) tt
          :: Logged (St (sidebar_title (str "Navigation"))) tt
          :: Logged (SidebarRadio (str "Go to")
                       [str "Dashboard"; str "Outfit Combinations"])
               (str "Outfit Combinations")
          :: rest
    /\ outfit_page ext py_repr model (mkState (session s) w) = (r, s', rest).
Proof.
  intros (page & w & rest & -> & Hq & Hrun)%main_log Hpage.
  cbn in Hpage. rewrite Hq in Hpage. destruct Hpage as [-> | []].
  rewrite decide_False in Hrun by apply page_names_differ.
  rewrite decide_True in Hrun by reflexivity. eauto.
Qed.

(** One run of the Dashboard page: what it leaves in [st.session_state],
    and the errors it shows when nothing came out of the pictures. The
    catalog is stored when the loop over the pictures came to its end,
    which it does when [st.image] showed every picture, with something in
    the list. *)
Lemma dashboard_run model s :
  exists r session' w' log,
    dashboard ext py_repr model s = (r, mkState session' w', log)
    /\ session'
       = match observe unshown log, concat (observe parsed_list log) with
         | [], _ :: _ =>
             <["catalog"%string := PyList (concat (observe parsed_list log))]>
               (session s)
         | _, _ => session s
         end
    /\ (concat (observe parsed_list log) = [] ->
        observe opened log <> [] ->
        In (error (str "Could not get analysis, please try again for one of the images."))
          (observe drawn log)
        /\ (observe unshown log = [] ->
            r = Ok tt
            /\ In (error (str "Could not get analysis, please try again for all images."))
                 (observe drawn log))).
Proof.
  unfold dashboard, session_set; unfold_m.
  repeat (first [ answer | ext_step ]).
  repeat case_decide; cbn; repeat (first [ answer | ext_step ]).
  all: try match goal with
         | x : list Upload |- _ => destruct x as [|? ?]; cbn
         | x : option Upload |- _ => destruct x as [?|]; cbn
         end.
  all: try (do 4 eexists; split; [reflexivity|]; cbn; split;
            [reflexivity | intros _ Hopened; now contradiction Hopened]).
  all: match goal with
       | |- context [analyze_uploads _ _ ?imgs ?acc ?st] =>
           destruct (analyze_uploads_summary model imgs acc st)
             as (r0 & w' & log & -> & _ & _ & _ & Herr & Hend)
       end; cbn in Hend; cbn.
  all: destruct (observe refused log) as [|[widget e] others];
    [ destruct Hend as (-> & Hopened & Hun)
    | destruct Hend as (-> & -> & f & files & Hun & Hopened) ]; cbn.
  all: try (do 4 eexists; (split; [reflexivity|]); observe_log;
            rewrite Hun; cbn; split; [reflexivity|];
            intros Hnone Hsome; split; [right; auto | discriminate]).
  all: destruct (concat (observe parsed_list log)) as [|item all] eqn:Hall;
    cbn; repeat (first [ answer | ext_step ]).
  all: try match goal with
       | |- context [show_catalog _ _ ?items ?st] =>
           destruct (frame_show_catalog items st) as [Hs Hl];
           destruct (show_catalog ext py_repr items st)
             as [[r1 [ss1 w1']] l1];
           cbn in Hs, Hl;
           apply text_entry_quiet in Hl as (Hq1 & Hq2 & _ & _ & _ & Hq6);
           destruct r1; cbn; repeat (first [ answer | ext_step ])
       end.
  all: do 4 eexists; (split; [reflexivity|]); observe_log.
  all: try (cbn in Hs; subst ss1).
  all: rewrite ?Hq1, ?Hq2, ?Hq6, ?Hun, ?app_nil_r, ?Hall; cbn.
  all: (split; [reflexivity|]); try discriminate.
  all: intros _ Hsome; split; [right; rewrite in_app_iff; auto|].
  all: intros _; split; [reflexivity|].
  all: right; rewrite in_app_iff; right; now left.
Qed.

(** One run of the Outfit Combinations page. *)
Lemma outfit_page_run model s :
  exists r s' log,
    outfit_page ext py_repr model s = (r, s', log)
    /\ session s' = session s
    /\ match session s !! "catalog"%string with
       | None =>
           r = Ok tt
           /\ observe drawn log
              = [header (str "Outfit Combinations");
                 warning (str "Please upload an image in the dashboard page to generate outfit combinations.")]
           /\ observe generate_call log = []
       | Some catalog =>
           observe generate_call log
           = [(model, Text (outfit_prompt py_repr catalog))]
       end.
Proof.
  destruct (frame_outfit_page model s) as [Hsession _].
  destruct (outfit_page ext py_repr model s) as [[r s'] log] eqn:Hrun.
  exists r, s', log. split; [reflexivity|]. split; [now symmetry|].
  clear Hsession. revert Hrun.
  unfold outfit_page, session_has, session_get; unfold_m.
  repeat (first [ answer | ext_step ]).
  destruct (session s !! "catalog"%string) as [catalog|] eqn:Hcatalog;
    cbn; rewrite ?Hcatalog; cbn.
  2: { repeat (first [ answer | ext_step ]). intros [= <- <- <-]. cbn. auto. }
  repeat (first [ answer | ext_step ]).
  match goal with
  | |- context [generate_outfit_combinations _ _ _ ?c ?st] =>
      destruct (generate_outfit_combinations_summary model c st)
        as (v & w' & log1 & -> & Hcall & _ & _)
  end.
  destruct v as [[|c0 text]|]; cbn; repeat (first [ answer | ext_step ]).
  1, 3: intros [= <- <- <-]; observe_log;
        now rewrite Hcall.
  unfold iter.
  destruct catalog; cbn; repeat (first [ answer | ext_step ]).
  all: try (intros [= <- <- <-]; observe_log;
            now rewrite Hcall).
  all: match goal with
       | |- context [report_catalog ?r ?items ?t ?st] =>
           destruct (frame_report_catalog items t st) as [_ Hl];
           destruct (report_catalog r items t st) as [[r1 s1] l1];
           cbn in Hl; destruct l1 as [|en l1]; [|now inversion Hl]
       end.
  all: destruct r1 as [catalog_text | e |]; cbn.
  all: try match goal with
       | |- context [encode_utf8 ?t] => destruct (encode_utf8 t); cbn
       end.
  all: repeat (first [ answer | ext_step ]).
  all: intros [= <- <- <-]; observe_log;
       now rewrite Hcall.
Qed.

(** A run of [main] with the Dashboard page picked: what it leaves in
    [st.session_state] and the errors it shows. *)
Lemma dashboard_page model s r s' log :
  main ext py_repr model s = (r, s', log) ->
  In (str "Dashboard") (observe page_chosen log) ->
  session s'
  = match observe unshown log, concat (observe parsed_list log) with
    | [], _ :: _ =>
        <["catalog"%string := PyList (concat (observe parsed_list log))]>
          (session s)
    | _, _ => session s
    end
  /\ (concat (observe parsed_list log) = [] ->
      observe opened log <> [] ->
      In (error (str "Could not get analysis, please try again for one of the images."))
        (observe drawn log)
      /\ (observe unshown log = [] ->
          r = Ok tt
          /\ In (error (str "Could not get analysis, please try again for all images."))
               (observe drawn log))).
Proof.
  intros Hmain Hpage.
  destruct (main_log_dashboard _ _ _ _ _ Hmain Hpage) as (w & rest & -> & Hrun).
  destruct (dashboard_run model (mkState (session s) w))
    as (r1 & session1 & w1 & log1 & Hrun1 & Hs1 & Herr).
  rewrite Hrun in Hrun1. injection Hrun1 as <- -> <-. cbn in *.
  split; [assumption|]. intros Hnone Hsome.
  destruct (Herr Hnone Hsome) as [Hone Hall]. split; [auto|].
  intros Hun. destruct (Hall Hun). auto.
Qed.

(** A run of [main] with the Outfit Combinations page picked is a run of
    that page. *)
Lemma main_outfit_page model s r s' log :
  main ext py_repr model s = (r, s', log) ->
  In (str "Outfit Combinations") (observe page_chosen log) ->
  exists w rest,
    outfit_page ext py_repr model (mkState (session s) w) = (r, s', rest)
    /\ observe drawn log
       = title (str "Wardrobe Styling App")
         :: sidebar_title (str "Navigation") :: observe drawn rest
    /\ observe generate_call log = observe generate_call rest.
Proof.
  intros (page & w & rest & Hp & Hd & Hg & _ & _ & Hrun)%main_inv Hpage.
  rewrite Hp in Hpage. destruct Hpage as [-> | []].
  rewrite decide_False in Hrun by apply page_names_differ.
  rewrite decide_True in Hrun by reflexivity. eauto 10.
Qed.


(** What the Outfit Combinations page gives to the model. *)
Lemma outfit_page_prompt model s r s' log catalog :
  main ext py_repr model s = (r, s', log) ->
  In (str "Outfit Combinations") (observe page_chosen log) ->
  session s !! "catalog"%string = Some catalog ->
  observe generate_call log = [(model, Text (outfit_prompt py_repr catalog))]
  /\ session s' = session s.
Proof.
  intros Hmain Hpage Hcatalog.
  destruct (main_outfit_page _ _ _ _ _ Hmain Hpage)
    as (w & rest & Hrun & _ & Hg).
  destruct (outfit_page_run model (mkState (session s) w))
    as (r1 & s1 & log1 & Hrun1 & Hs1 & Hcat).
  rewrite Hrun in Hrun1. injection Hrun1 as <- <- <-. cbn in Hcat, Hs1.
  rewrite Hcatalog in Hcat. now rewrite Hg.
Qed.

(** C8. On the Outfit Combinations page, [generate_outfit_combinations] is
    called once, with the catalog found in [st.session_state], and when
    there is no catalog the page shows the warning and calls no model. After
    a Dashboard run of the same session, the catalog found is the one that
    run stored, when it stored one (it showed every picture and its
    analysis gave something); when it stored none, the page finds what was
    in the session state before that run. *)
Theorem outfit_page_generates_from_the_session_catalog
    model s r s' log :
  main ext py_repr model s = (r, s', log) ->
  In (str "Outfit Combinations") (observe page_chosen log) ->
  match session s !! "catalog"%string with
  | None =>
      observe drawn log
      = [title (str "Wardrobe Styling App");
         sidebar_title (str "Navigation");
         header (str "Outfit Combinations");
         warning (str "Please upload an image in the dashboard page to generate outfit combinations.")]
      /\ observe generate_call log = []
  | Some catalog =>
      observe generate_call log
      = [(model, Text (outfit_prompt py_repr catalog))]
  end
  /\ forall model0 s0 r0 s1 log0,
      main ext py_repr model0 s0 = (r0, s1, log0) ->
      In (str "Dashboard") (observe page_chosen log0) ->
      session s = session s1 ->
      match observe unshown log0, concat (observe parsed_list log0) with
      | [], item :: all =>
          observe generate_call log
          = [(model, Text (outfit_prompt py_repr (PyList (item :: all))))]
      | _, _ => session s = session s0
      end.
Proof.
  intros Hmain Hpage. split.
  - destruct (session s !! "catalog"%string) as [catalog|] eqn:Hcatalog.
    + now apply (outfit_page_prompt _ _ _ _ _ _ Hmain Hpage).
    + destruct (main_outfit_page _ _ _ _ _ Hmain Hpage)
        as (w & rest & Hrun & Hd & Hg).
      destruct (outfit_page_run model (mkState (session s) w))
        as (r1 & s1 & log1 & Hrun1 & _ & Hcat).
      rewrite Hrun in Hrun1. injection Hrun1 as <- <- <-. cbn in Hcat.
      rewrite Hcatalog in Hcat. destruct Hcat as (_ & Hdrawn & Hnone).
      now rewrite Hd, Hg, Hdrawn.
  - intros model0 s0 r0 s1 log0 Hmain0 Hpage0 Hsession.
    destruct (dashboard_page _ _ _ _ _ Hmain0 Hpage0) as [Hs1 _].
    destruct (observe unshown log0); [|congruence].
    destruct (concat (observe parsed_list log0)) as [|item all];
      [congruence|].
    apply (outfit_page_prompt _ _ _ _ _ _ Hmain Hpage).
    rewrite Hsession, Hs1. apply lookup_insert_eq.
Qed.

Lemma concat_not_nil {A} (ls : list (list A)) :
  concat ls <> [] -> exists l, In l ls /\ l <> [].
Proof.
  intros Hne. induction ls as [|[|x l] ls IH].
  - now contradiction Hne.
  - destruct (IH Hne) as (l & Hin & Hl). exists l. split; [now right | auto].
  - exists (x :: l). split; [now left | discriminate].
Qed.

(** C10. On the Dashboard page [st.session_state.catalog] is assigned only
    when some analysis gave a non-empty list and [st.image] showed every
    picture, so that the loop came to its end; it is then assigned the
    concatenation of the lists. When every analysis failed or gave an empty
    list, the session state is left as it was, and if a picture was
    analysed the error for one of the images is shown, followed, when the
    loop came to its end, by the error for all images. *)
Theorem dashboard_assigns_catalog_only_on_success model s r s' log :
  main ext py_repr model s = (r, s', log) ->
  In (str "Dashboard") (observe page_chosen log) ->
  session s'
  = match observe unshown log, concat (observe parsed_list log) with
    | [], _ :: _ =>
        <["catalog"%string := PyList (concat (observe parsed_list log))]>
          (session s)
    | _, _ => session s
    end
  /\ (session s' <> session s ->
      exists l, In l (observe parsed_list log) /\ l <> [])
  /\ ((forall l, In l (observe parsed_list log) -> l = []) ->
      session s' = session s
      /\ (observe opened log <> [] ->
          In (error (str "Could not get analysis, please try again for one of the images."))
            (observe drawn log)
          /\ (observe unshown log = [] ->
              r = Ok tt
              /\ In (error (str "Could not get analysis, please try again for all images."))
                   (observe drawn log)))).
Proof.
  intros Hmain Hpage.
  destruct (dashboard_page _ _ _ _ _ Hmain Hpage) as [Hsession Herror].
  pose proof (concat_not_nil (observe parsed_list log)) as Hsome.
  assert (Hnone : (forall l, In l (observe parsed_list log) -> l = []) ->
                  concat (observe parsed_list log) = []).
  { intros Hempty. apply concat_nil_Forall, Forall_forall.
    intros l Hl. now apply Hempty, list_elem_of_In. }
  split; [assumption|]. split.
  - intros Hchanged. apply Hsome. intros Hall. apply Hchanged.
    rewrite Hsession, Hall. now destruct (observe unshown log).
  - intros Hempty. specialize (Hnone Hempty). rewrite Hnone in Hsession.
    split; [now destruct (observe unshown log)|]. now apply Herror.
Qed.


(** C9. When [GOOGLE_API_KEY] is unset or empty, the script shows an error
    that names [GEMINI_API_KEY] and stops: the client is not configured and
    no model is built, so a run that builds the model has read a key. *)
Theorem missing_api_key_stops_the_script s r s' log key :
  script ext py_repr s = (r, s', log) ->
  In (str "GOOGLE_API_KEY", key) (observe env_read log) ->
  key = None \/ key = Some [] ->
  r = Halt
  /\ (exists message,
         observe drawn log = [error message; stop]
         /\ contains (str "GEMINI_API_KEY") message)
  /\ observe configured log = []
  /\ observe built_model log = [].
Proof.
  revert key. unfold script; unfold_m; cbn.
  repeat (first [ answer | ext_step ]).
  all: try (intros key [= <- <- <-] []).
  all: match goal with
       | x : option pystr |- _ => destruct x as [[|c0 key0]|]; cbn
       end.
  all: repeat (first [ answer | ext_step ]).
  all: try match goal with
       | |- context [main ext py_repr ?mo ?st] =>
           destruct (frame_main mo st) as [_ Hframe];
           destruct (main ext py_repr mo st) as [[r1 s1] log1];
           cbn in *; apply main_entry_quiet in Hframe as (Hq1 & Hq2 & Hq3)
       end.
  all: intros key [= <- <- <-]; cbn; rewrite ?Hq1; cbn.
  all: intros [[= <-] | []] [Hkey | Hkey]; try discriminate Hkey.
  all: split; [reflexivity|]; split; [|split; reflexivity].
  all: eexists; split; [reflexivity|].
  all: exists [], (str " is not set in the environment variables.");
       vm_compute; reflexivity.
Qed.

(** C6, as the code has it. [analyze_image] returns the list that the match
    in the stripped reply parsed to, never the reply itself;
    [generate_outfit_combinations] returns the text of the reply as it is. *)
Theorem replies_are_post_processed_by_analyze_image_only
    model image catalog s :
  (exists v s' log,
      analyze_image ext model image s = (Ok v, s', log)
      /\ match v with
         | Some l => parsed log l
         | None => True
         end)
  /\ (exists v s' log,
        generate_outfit_combinations ext py_repr model catalog s
        = (Ok v, s', log)
        /\ observe reply_text log = option_list v).
Proof.
  split.
  - analyze_cases; do 3 eexists; (split; [reflexivity|]); try exact I.
    eexists. split; [|cbn; left; reflexivity].
    eexists. split; [cbn; left; reflexivity | eassumption].
  - destruct (generate_outfit_combinations_summary model catalog s)
      as (v & w' & log & -> & _ & Htext & _). eauto.
Qed.

(** * Further properties of the script *)

(** ** [analyze_image] and [generate_outfit_combinations] *)

(** X3. Every failure of [analyze_image] is reported once: a call that
    returns [None] has shown exactly one [st.error], a call that returns a
    list has shown nothing; in both cases [st.session_state] is as before. *)
Theorem analyze_image_reports_each_failure_once model image s :
  exists v s' log,
    analyze_image ext model image s = (Ok v, s', log)
    /\ session s' = session s
    /\ match v with
       | Some _ => observe drawn log = []
       | None => exists message, observe drawn log = [error message]
       end.
Proof.
  analyze_cases; do 3 eexists; (split; [reflexivity|]);
    (split; [reflexivity|]); cbn; eauto.
Qed.

(** X4. When [Image.open] raises, [analyze_image] does not call the model:
    it shows the exception as an analysis error and returns [None]. *)
Theorem unreadable_image_is_not_sent_to_the_model
    model image s r s' log e :
  analyze_image ext model image s = (r, s', log) ->
  In (inl e) (observe open_result log) ->
  r = Ok None
  /\ observe generate_call log = []
  /\ observe drawn log = [error (str "Error analyzing image: " ++ exn_str e)].
Proof.
  revert r s' log e.
  analyze_cases; intros r s' log e [= <- <- <-] Hopen; cbn in Hopen;
    destruct Hopen as [[= <-] | []]; auto.
Qed.

(** X5. When [json.loads] raises on the matched text, a
    [JSONDecodeError] is shown as a parsing error and any other exception
    as an analysis error; either way the result is [None]. *)
Theorem json_loads_exceptions_are_told_apart
    model image s r s' log m e :
  analyze_image ext model image s = (r, s', log) ->
  In (m, inl e) (observe loads_call log) ->
  r = Ok None
  /\ observe drawn log
     = [error
          (match e with
           | JSONDecodeError _ =>
               str "Error parsing JSON from the cleaned response: "
           | _ => str "Error analyzing image: "
           end ++ exn_str e)].
Proof.
  revert r s' log m e.
  analyze_cases; intros r s' log m e [= <- <- <-] Hloads; cbn in Hloads;
    try contradiction;
    destruct Hloads as [[= <- <-] | []]; auto.
Qed.

(** X6. [generate_outfit_combinations] never raises. It returns the text of
    the reply and shows nothing when no call raised; when [generate_content]
    or [response.text] raised, it shows the exception under
    [Error generating outfit combinations] and returns [None]. *)
Theorem generate_outfit_combinations_never_raises model catalog s :
  exists v s' log,
    generate_outfit_combinations ext py_repr model catalog s = (Ok v, s', log)
    /\ session s' = session s
    /\ match v with
       | Some text =>
           observe raised log = [] /\ observe drawn log = []
           /\ observe reply_text log = [text]
       | None =>
           exists e,
             observe raised log = [e]
             /\ observe drawn log
                = [error (str "Error generating outfit combinations: "
                          ++ exn_str e)]
       end.
Proof.
  unfold generate_outfit_combinations; unfold_m; cbn.
  repeat (first [ answer | ext_step ]);
    do 3 eexists; (split; [reflexivity|]); (split; [reflexivity|]);
    cbn; eauto.
Qed.

(** X7. Whatever [analyze_image] gives to [json.loads] is a piece of the
    stripped reply that opens with a bracket, blanks and a brace and closes
    with a brace, blanks and a bracket. *)
Theorem json_loads_gets_a_bracketed_piece_of_the_reply
    model image s r s' log m answer :
  analyze_image ext model image s = (r, s', log) ->
  In (m, answer) (observe loads_call log) ->
  exists text pre post blanks1 body blanks2,
    In text (observe reply_text log)
    /\ strip text = pre ++ m ++ post
    /\ m = [91%N] ++ blanks1 ++ [123%N] ++ body ++ [125%N] ++ blanks2
           ++ [93%N]
    /\ Forall (fun c => isspace c = true) blanks1
    /\ Forall (fun c => isspace c = true) blanks2.
Proof.
  revert r s' log m answer.
  analyze_cases; intros r s' log m answer [= <- <- <-] Hloads;
    cbn in Hloads; try contradiction;
    destruct Hloads as [[= <- <-] | []].
  all: destruct (search_sound _ _ _ Hsearch)
         as [(b1 & body & b2 & Hm & Hb1 & Hb2)%json_array_re_lang
             (pre & post & Hsplit)].
  all: eexists _, pre, post, b1, body, b2; cbn; eauto 10.
Qed.

(** ** The Dashboard page *)

(** One run of the Dashboard page, by the calls it makes. *)
Lemma dashboard_calls model s :
  exists r s' log,
    dashboard ext py_repr model s = (r, s', log)
    /\ match observe unshown log with
       | [] => observe opened log = concat (observe uploaded log)
       | f :: _ =>
           exists rest,
             concat (observe uploaded log) = observe opened log ++ f :: rest
       end
    /\ length (observe generate_call log) <= length (observe opened log)
    /\ length (observe loads_call log) <= length (observe generate_call log)
    /\ (concat (observe uploaded log) = [] ->
        r = Ok tt /\ session s' = session s
        /\ observe drawn log = [header (str "Wardrobe Dashboard")]).
Proof.
  unfold dashboard, session_set; unfold_m.
  repeat (first [ answer | ext_step ]).
  repeat case_decide; cbn; repeat (first [ answer | ext_step ]).
  all: try match goal with
         | x : list Upload |- _ => destruct x as [|? ?]; cbn
         | x : option Upload |- _ => destruct x as [?|]; cbn
         end.
  all: try (do 3 eexists; split; [reflexivity|]; cbn; auto 10; fail).
  all: match goal with
       | |- context [analyze_uploads _ _ ?imgs ?acc ?st] =>
           destruct (analyze_uploads_summary model imgs acc st)
             as (r0 & w' & log & -> & Hup & Hgen & Hloads & _ & Hend)
       end; cbn in Hend; cbn.
  all: destruct (observe refused log) as [|[widget e] others];
    [ destruct Hend as (-> & Hopened & Hun)
    | destruct Hend as (-> & -> & f & files & Hun & Hopened) ]; cbn.
  all: try (do 3 eexists; (split; [reflexivity|]); observe_log;
            rewrite Hun, Hup, ?app_nil_r; cbn;
            split; [exists files; now rewrite ?app_nil_r|];
            repeat split; try lia; discriminate).
  all: destruct (concat (observe parsed_list log)) as [|item all];
    cbn; repeat (first [ answer | ext_step ]).
  all: try match goal with
       | |- context [show_catalog _ _ ?items ?st] =>
           destruct (frame_show_catalog items st) as [_ Hl];
           destruct (show_catalog ext py_repr items st)
             as [[r1 [ss1 w1']] l1];
           cbn in Hl;
           apply text_entry_quiet in Hl as (_ & Hq2 & Hq3 & Hq4 & Hq5 & Hq6);
           destruct r1; cbn; repeat (first [ answer | ext_step ])
       end.
  all: do 3 eexists; (split; [reflexivity|]); observe_log.
  all: rewrite ?Hq2, ?Hq3, ?Hq4, ?Hq5, ?Hq6, ?Hup, ?Hun, ?app_nil_r; cbn.
  all: rewrite ?app_nil_r, ?length_app, <- ?Hopened; cbn.
  all: try (rewrite <- Hopened in Hgen; cbn in Hgen).
  all: repeat split; try lia; try discriminate.
Qed.

(** X8. A Dashboard run in which the user gave no picture draws the title,
    the sidebar and the header and nothing else, calls neither the model
    nor [json.loads], and leaves [st.session_state] as it was. *)
Theorem dashboard_without_pictures_does_nothing model s r s' log :
  main ext py_repr model s = (r, s', log) ->
  In (str "Dashboard") (observe page_chosen log) ->
  concat (observe uploaded log) = [] ->
  r = Ok tt
  /\ session s' = session s
  /\ observe drawn log
     = [title (str "Wardrobe Styling App");
        sidebar_title (str "Navigation");
        header (str "Wardrobe Dashboard")]
  /\ observe generate_call log = []
  /\ observe loads_call log = [].
Proof.
  intros Hmain Hpage Hnone.
  destruct (main_log_dashboard _ _ _ _ _ Hmain Hpage) as (w & rest & -> & Hrun).
  destruct (dashboard_calls model (mkState (session s) w))
    as (r1 & s1 & log1 & Hrun1 & Hopen & Hgen & Hloads & Hidle).
  rewrite Hrun in Hrun1. injection Hrun1 as <- <- <-.
  cbn in Hnone |- *. rewrite Hnone in Hopen.
  destruct (Hidle Hnone) as (-> & Hs & ->).
  assert (Hopened : observe opened rest = []).
  { destruct (observe unshown rest); [assumption|].
    destruct Hopen as [files Hfiles].
    now destruct (observe opened rest). }
  rewrite Hopened in Hgen.
  destruct (observe generate_call rest); [|cbn in Hgen; lia].
  destruct (observe loads_call rest); [|cbn in Hloads; lia].
  auto.
Qed.

(** X9. On a Dashboard run the pictures the user gave are opened once each
    and in the order given, whatever the analysis of the pictures before
    gave: all of them when [st.image] showed every picture, and otherwise
    those before the first picture that [st.image] refused. There is at
    most one call to the model for each picture opened, and at most one call
    to [json.loads] for each call to the model. *)
Theorem dashboard_analyses_each_picture_once model s r s' log :
  main ext py_repr model s = (r, s', log) ->
  In (str "Dashboard") (observe page_chosen log) ->
  match observe unshown log with
  | [] => observe opened log = concat (observe uploaded log)
  | f :: _ =>
      exists rest,
        concat (observe uploaded log) = observe opened log ++ f :: rest
  end
  /\ length (observe generate_call log) <= length (observe opened log)
  /\ length (observe loads_call log) <= length (observe generate_call log).
Proof.
  intros Hmain Hpage.
  destruct (main_log_dashboard _ _ _ _ _ Hmain Hpage) as (w & rest & -> & Hrun).
  destruct (dashboard_calls model (mkState (session s) w))
    as (r1 & s1 & log1 & Hrun1 & Hopen & Hgen & Hloads & _).
  rewrite Hrun in Hrun1. injection Hrun1 as <- <- <-. cbn. auto.
Qed.

(** How a Dashboard run that had something to store ends. *)
Lemma dashboard_outcome model s :
  exists r s' log,
    dashboard ext py_repr model s = (r, s', log)
    /\ (concat (observe parsed_list log) <> [] ->
        (Forall (renderable py_repr) (concat (observe parsed_list log))
         /\ observe refused log = []
         /\ r = Ok tt
         /\ In (success (str "Image Analysis Complete!")) (observe drawn log))
        \/ ((~ Forall (renderable py_repr) (concat (observe parsed_list log))
             \/ observe refused log <> [])
            /\ exists e, r = Raise e)).
Proof.
  unfold dashboard, session_set; unfold_m.
  repeat (first [ answer | ext_step ]).
  repeat case_decide; cbn; repeat (first [ answer | ext_step ]).
  all: try match goal with
         | x : list Upload |- _ => destruct x as [|? ?]; cbn
         | x : option Upload |- _ => destruct x as [?|]; cbn
         end.
  all: try (do 3 eexists; split; [reflexivity|]; cbn;
            intros Hall; now contradiction Hall).
  all: match goal with
       | |- context [analyze_uploads _ _ ?imgs ?acc ?st] =>
           destruct (analyze_uploads_summary model imgs acc st)
             as (r0 & w' & log & -> & _ & _ & _ & _ & Hend)
       end; cbn in Hend; cbn.
  all: destruct (observe refused log) as [|[widget e] others] eqn:Href;
    [ destruct Hend as (-> & _ & _)
    | destruct Hend as (-> & -> & _) ]; cbn.
  all: try (do 3 eexists; (split; [reflexivity|]); observe_log;
            rewrite Href; intros _; right; split; [right; discriminate|];
            eauto; fail).
  all: destruct (concat (observe parsed_list log)) as [|item all] eqn:Hall;
    cbn; repeat (first [ answer | ext_step ]).
  all: try (do 3 eexists; split; [reflexivity|]; observe_log;
            rewrite ?app_nil_r, Hall; cbn; intros Hne;
            now contradiction Hne).
  all: match goal with
       | |- context [show_catalog _ _ ?items ?st] =>
           destruct (frame_show_catalog items st) as [_ Hl];
           destruct (show_catalog_outcome items st)
             as [(Hok & Href1 & Hr) | [Hbad [e Hr]]];
           destruct (show_catalog ext py_repr items st)
             as [[r1 [ss1 w1']] l1];
           cbn in *; apply text_entry_quiet in Hl as (Hq1 & _);
           subst r1; cbn; repeat (first [ answer | ext_step ])
       end.
  all: do 3 eexists; (split; [reflexivity|]); observe_log.
  all: rewrite ?Hq1, ?Href, ?Href1, ?app_nil_r, ?Hall; cbn; intros _.
  all: first
    [ left; split; [assumption|]; split; [reflexivity|];
      split; [reflexivity|];
      right; rewrite !in_app_iff; do 2 right; rewrite in_app_iff; right;
      now left
    | right; split; [|eauto];
      destruct Hbad as [Hbad | Hbad]; [now left | right];
      now rewrite ?app_nil_r ].
Qed.

(** X10. A Dashboard run that had something to store ends well, with
    [Image Analysis Complete!], exactly when every record of the catalog is
    an object whose [colors] and [style] can be joined and Streamlit
    refused no picture and no text; otherwise the run ends with an
    exception: that of the call Streamlit refused, or that of the first
    record that cannot be drawn. *)
Theorem dashboard_completes_on_renderable_records model s r s' log :
  main ext py_repr model s = (r, s', log) ->
  In (str "Dashboard") (observe page_chosen log) ->
  concat (observe parsed_list log) <> [] ->
  (Forall (renderable py_repr) (concat (observe parsed_list log))
   /\ observe refused log = []
   /\ r = Ok tt
   /\ In (success (str "Image Analysis Complete!")) (observe drawn log))
  \/ ((~ Forall (renderable py_repr) (concat (observe parsed_list log))
       \/ observe refused log <> [])
      /\ exists e, r = Raise e).
Proof.
  intros Hmain Hpage Hall.
  destruct (main_log_dashboard _ _ _ _ _ Hmain Hpage) as (w & rest & -> & Hrun).
  destruct (dashboard_outcome model (mkState (session s) w))
    as (r1 & s1 & log1 & Hrun1 & Hend).
  rewrite Hrun in Hrun1. injection Hrun1 as <- <- <-. cbn in Hall |- *.
  destruct (Hend Hall) as [(Hok & Href & Hr & Hdrawn) | Hbad];
    [left | now right].
  repeat split; auto.
Qed.

(** ** The session state across runs *)

Lemma main_keeps_catalog_ok model s :
  catalog_ok (session s) ->
  catalog_ok (session (main ext py_repr model s).1.2).
Proof.
  intros Hok.
  destruct (main ext py_repr model s) as [[r s'] log] eqn:Hmain.
  apply main_log in Hmain as (page & w & rest & _ & _ & Hrun). cbn.
  repeat case_decide.
  - destruct (dashboard_run model (mkState (session s) w))
      as (r1 & session1 & w1 & log1 & Hrun1 & Hs1 & _).
    rewrite Hrun in Hrun1. injection Hrun1 as <- -> <-. cbn in *.
    destruct (observe unshown rest); [|now subst session1].
    destruct (concat (observe parsed_list rest)); subst session1;
      [assumption|].
    unfold catalog_ok. now rewrite lookup_insert_eq.
  - destruct (frame_outfit_page model (mkState (session s) w)) as [Hs _].
    rewrite Hrun in Hs. cbn in Hs. now rewrite <- Hs.
  - injection Hrun as <- <- <-. assumption.
Qed.

(** X11. What the script keeps under [catalog] in [st.session_state] is
    always a list that is not empty: if that holds (or nothing is stored)
    before a run of the script, it holds after it, however the run ends. *)
Theorem script_keeps_the_session_catalog_a_nonempty_list s :
  catalog_ok (session s) ->
  catalog_ok (session (script ext py_repr s).1.2).
Proof.
  intros Hok. unfold script; unfold_m; cbn.
  repeat (first [ answer | ext_step ]); try assumption.
  all: match goal with
       | x : option pystr |- _ => destruct x as [[|c0 key0]|]; cbn
       end.
  all: repeat (first [ answer | ext_step ]); try assumption.
  match goal with
  | |- context [main ext py_repr ?mo ?st] =>
      pose proof (main_keeps_catalog_ok mo st Hok) as Hmain;
      destruct (main ext py_repr mo st) as [[r1 s1] log1]
  end.
  exact Hmain.
Qed.

(** ** The Outfit Combinations page *)

Lemma generate_outfit_combinations_paths model catalog s :
  exists v w' log,
    generate_outfit_combinations ext py_repr model catalog s
    = (Ok v, mkState (session s) w', log)
    /\ observe reply_text log = option_list v
    /\ observe download log = []
    /\ observe drawn log
       = match v with
         | Some _ => []
         | None =>
             option_list
               (option_map
                  (fun e => error (str "Error generating outfit combinations: "
                                   ++ exn_str e))
                  (head (observe raised log)))
         end
    /\ match v with
       | Some _ => observe raised log = []
       | None => observe raised log <> []
       end.
Proof.
  unfold generate_outfit_combinations; unfold_m; cbn.
  repeat (first [ answer | ext_step ]);
    do 3 eexists; (split; [reflexivity|]); cbn; repeat split; discriminate.
Qed.

(** The page when the model gave nothing to show. *)
Lemma outfit_page_failure model s r s' log catalog :
  outfit_page ext py_repr model s = (r, s', log) ->
  session s !! "catalog"%string = Some catalog ->
  observe raised log <> [] \/ In [] (observe reply_text log) ->
  r = Ok tt
  /\ observe drawn log
     = header (str "Outfit Combinations")
       :: spinner_enter (str "Generating Outfit Combinations...")
       :: option_list
            (option_map
               (fun e => error (str "Error generating outfit combinations: "
                                ++ exn_str e))
               (head (observe raised log)))
       ++ [spinner_exit;
           error (str "Could not generate outfit combinations")]
  /\ observe download log = [].
Proof.
  intros Hrun Hcatalog. revert Hrun.
  unfold outfit_page, session_has, session_get; unfold_m.
  repeat (first [ answer | ext_step ]).
  repeat (cbn; rewrite Hcatalog); cbn.
  repeat (first [ answer | ext_step ]).
  match goal with
  | |- context [generate_outfit_combinations _ _ _ ?c ?st] =>
      destruct (generate_outfit_combinations_paths model c st)
        as (v & w' & log1 & -> & Htext & Hdl & Hdrawn & Hraised)
  end.
  destruct v as [[|c0 text]|]; cbn; repeat (first [ answer | ext_step ]).
  1, 3: intros [= <- <- <-] _; observe_log;
        rewrite ?Hdl, ?Hdrawn, ?Hraised; cbn;
        rewrite ?app_nil_r, <- ?app_assoc; now auto.
  unfold iter.
  destruct catalog; cbn; repeat (first [ answer | ext_step ]).
  all: try match goal with
       | |- context [report_catalog ?r ?items ?t ?st] =>
           destruct (frame_report_catalog items t st) as [_ Hl];
           destruct (report_catalog r items t st) as [[r1 s1] l1];
           cbn in Hl; destruct l1 as [|en l1]; [|now inversion Hl];
           destruct r1 as [catalog_text | e |]; cbn
       end.
  all: try match goal with
       | |- context [encode_utf8 ?t] => destruct (encode_utf8 t); cbn
       end.
  all: repeat (first [ answer | ext_step ]).
  all: intros [= <- <- <-] Hfail; exfalso; revert Hfail; observe_log;
       rewrite Hraised, Htext; cbn; intros [Hne | [[=] | []]];
       now apply Hne.
Qed.

(** X12. On the Outfit Combinations page with a catalog, when
    [generate_content] or [response.text] raises, or the reply is the empty
    string, the page ends well, shows [Could not generate outfit
    combinations] (after the error of the exception, if there was one) and
    offers no download. *)
Theorem outfit_page_without_suggestions model s r s' log catalog :
  main ext py_repr model s = (r, s', log) ->
  In (str "Outfit Combinations") (observe page_chosen log) ->
  session s !! "catalog"%string = Some catalog ->
  observe raised log <> [] \/ In [] (observe reply_text log) ->
  r = Ok tt
  /\ observe drawn log
     = title (str "Wardrobe Styling App")
       :: sidebar_title (str "Navigation")
       :: header (str "Outfit Combinations")
       :: spinner_enter (str "Generating Outfit Combinations...")
       :: option_list
            (option_map
               (fun e => error (str "Error generating outfit combinations: "
                                ++ exn_str e))
               (head (observe raised log)))
       ++ [spinner_exit;
           error (str "Could not generate outfit combinations")]
  /\ observe download log = [].
Proof.
  intros Hmain Hpage Hcatalog Hfail.
  destruct (main_log_outfit_page _ _ _ _ _ Hmain Hpage)
    as (w & rest & -> & Hrun).
  cbn in Hfail |- *.
  destruct (outfit_page_failure model _ _ _ _ catalog Hrun Hcatalog Hfail)
    as (-> & -> & ->).
  auto.
Qed.



(** The page when the model gave suggestions but a record of the catalog
    cannot be drawn. *)
Lemma outfit_page_crash model s r s' log catalog reply :
  outfit_page ext py_repr model s = (r, s', log) ->
  session s !! "catalog"%string = Some (PyList catalog) ->
  ~ Forall (renderable py_repr) catalog ->
  In reply (observe reply_text log) ->
  reply <> [] ->
  (exists e, r = Raise e)
  /\ observe download log = []
  /\ observe drawn log
     = [header (str "Outfit Combinations");
        spinner_enter (str "Generating Outfit Combinations...");
        spinner_exit;
        subheader (str "Outfit Suggestions:");
        markdown reply false].
Proof.
  intros Hrun Hcatalog Hbad Hreply Hne. revert Hrun.
  unfold outfit_page, session_has, session_get; unfold_m.
  repeat (first [ answer | ext_step ]).
  repeat (cbn; rewrite Hcatalog); cbn.
  repeat (first [ answer | ext_step ]).
  match goal with
  | |- context [generate_outfit_combinations _ _ _ ?c ?st] =>
      destruct (generate_outfit_combinations_paths model c st)
        as (v & w' & log1 & -> & Htext & Hdl & Hdrawn & _)
  end.
  destruct v as [[|c0 text]|]; cbn; repeat (first [ answer | ext_step ]).
  1, 3: intros [= <- <- <-]; exfalso; revert Hreply; observe_log;
        rewrite Htext; cbn; intros Hin;
        first [ contradiction | destruct Hin as [<- | []]; now apply Hne ].
  unfold iter; cbn.
  match goal with
  | |- context [report_catalog ?r ?items ?t ?st] =>
      destruct (frame_report_catalog items t st) as [_ Hl];
      destruct (report_catalog_outcome items t st)
        as [[Hok _] | [_ [e Hr]]]; [now contradiction Hbad|];
      destruct (report_catalog r items t st) as [[r1 s1] l1];
      cbn in Hl, Hr; destruct l1 as [|en l1]; [|now inversion Hl];
      subst r1; cbn
  end.
  intros [= <- <- <-]; revert Hreply; observe_log;
    rewrite Htext, Hdl, Hdrawn; cbn; intros [<- | []]. eauto.
Qed.

(** X16. On the Outfit Combinations page, when a record of the stored
    catalog is not an object whose [colors] and [style] can be joined, the
    page calls the model, shows its suggestions and then ends with the
    exception of that record: no report is offered. *)
Theorem outfit_page_crashes_on_a_bad_record
    model s r s' log catalog reply :
  main ext py_repr model s = (r, s', log) ->
  In (str "Outfit Combinations") (observe page_chosen log) ->
  session s !! "catalog"%string = Some (PyList catalog) ->
  ~ Forall (renderable py_repr) catalog ->
  In reply (observe reply_text log) ->
  reply <> [] ->
  (exists e, r = Raise e)
  /\ observe download log = []
  /\ observe drawn log
     = [title (str "Wardrobe Styling App");
        sidebar_title (str "Navigation");
        header (str "Outfit Combinations");
        spinner_enter (str "Generating Outfit Combinations...");
        spinner_exit;
        subheader (str "Outfit Suggestions:");
        markdown reply false].
Proof.
  intros Hmain Hpage Hcatalog Hbad Hreply Hne.
  destruct (main_log_outfit_page _ _ _ _ _ Hmain Hpage)
    as (w & rest & -> & Hrun).
  cbn in Hreply.
  destruct (outfit_page_crash model _ _ _ _ catalog reply
              Hrun Hcatalog Hbad Hreply Hne) as (Hr & Hdl & Hdrawn).
  cbn. now rewrite Hdrawn, Hdl.
Qed.

(** X14. What [analyze_image] sends to the model is always the same
    prompt followed by the image that [Image.open] returned for the
    uploaded file. *)
Theorem analyze_image_sends_the_prompt_and_the_opened_image
    model image s r s' log m contents :
  analyze_image ext model image s = (r, s', log) ->
  In (m, contents) (observe generate_call log) ->
  exists image_data,
    observe open_result log = [inr image_data]
    /\ observe opened log = [image]
    /\ contents = Parts [TextPart analysis_prompt; ImagePart image_data].
Proof.
  revert r s' log m contents.
  analyze_cases; intros r s' log m contents [= <- <- <-] Hcall;
    cbn in Hcall; try contradiction;
    destruct Hcall as [[= <- <-] | []]; eauto.
Qed.

(** ** The module level *)

(** X15. When [GOOGLE_API_KEY] holds a key, that key and nothing else is
    what [genai.configure] is called with, no other environment variable is
    read, and anything the script draws is drawn after the model
    [gemini-1.5-flash] was built. *)
Theorem script_configures_the_client_with_the_key s r s' log c key :
  script ext py_repr s = (r, s', log) ->
  In (str "GOOGLE_API_KEY", Some (c :: key)) (observe env_read log) ->
  observe env_read log = [(str "GOOGLE_API_KEY", Some (c :: key))]
  /\ observe configured log = [Some (c :: key)]
  /\ (observe drawn log <> [] ->
      exists model,
        observe built_model log = [(str "gemini-1.5-flash", inr model)]).
Proof.
  revert c key. unfold script; unfold_m; cbn.
  repeat (first [ answer | ext_step ]).
  all: try (intros c key [= <- <- <-] []).
  all: match goal with
       | x : option pystr |- _ => destruct x as [[|c0 key0]|]; cbn
       end.
  all: repeat (first [ answer | ext_step ]).
  all: try match goal with
       | |- context [main ext py_repr ?mo ?st] =>
           destruct (frame_main mo st) as [_ Hframe];
           destruct (main ext py_repr mo st) as [[r1 s1] log1];
           cbn in *; apply main_entry_quiet in Hframe as (Hq1 & Hq2 & Hq3)
       end.
  all: intros c key [= <- <- <-]; cbn; rewrite ?Hq1, ?Hq2, ?Hq3; cbn.
  all: intros [[= <- <-] | []].
  all: repeat split; eauto.
  all: intros Hdrawn; now contradiction Hdrawn.
Qed.

End Properties.

(** * The properties at sample inputs *)

Lemma triple_eta {A B C} (x : A * B * C) : x = (x.1.1, x.1.2, x.2).
Proof. now destruct x as [[? ?] ?]. Qed.

(** C1 at a reply without any JSON. *)
Lemma analyze_image_single_regex_extraction_witness :
  let run :=
    analyze_image Demo.ext Demo.model Demo.picture
      (Demo.dashboard_session ∅ [str "Sorry, I cannot see any clothing."]) in
  run.1.1 = Ok None
  /\ observe drawn run.2
     = [error (str "Failed to extract JSON from the response. Please check the format.")]
  /\ observe loads_call run.2 = [].
Proof.
  cbv zeta.
  assert (Hreply :
    In (str "Sorry, I cannot see any clothing.")
      (observe reply_text
         (analyze_image Demo.ext Demo.model Demo.picture
            (Demo.dashboard_session ∅
               [str "Sorry, I cannot see any clothing."])).2))
    by (vm_compute; left; reflexivity).
  exact (analyze_image_single_regex_extraction Demo.ext Demo.model
           Demo.picture _ _ _ _ _ (triple_eta _) Hreply).
Defined.

(** C3 at a reply whose array holds a number between two empty objects. *)
Lemma analyze_image_returns_array_unchanged_witness :
  (analyze_image Demo.ext Demo.model Demo.picture
     (Demo.dashboard_session ∅ [str "Here you go: [{}, 5, {}] Enjoy!"])).1.1
  = Ok (Some [PyDict []; PyInt 5; PyDict []]).
Proof.
  assert (Hreply :
    In (str "Here you go: [{}, 5, {}] Enjoy!")
      (observe reply_text
         (analyze_image Demo.ext Demo.model Demo.picture
            (Demo.dashboard_session ∅
               [str "Here you go: [{}, 5, {}] Enjoy!"])).2))
    by (vm_compute; left; reflexivity).
  assert (Hmatch :
    Re.search json_array_re (strip (str "Here you go: [{}, 5, {}] Enjoy!"))
    = Some (str "[{}, 5, {}]"))
    by (vm_compute; reflexivity).
  assert (Hloads :
    In (str "[{}, 5, {}]", inr (PyList [PyDict []; PyInt 5; PyDict []]))
      (observe loads_call
         (analyze_image Demo.ext Demo.model Demo.picture
            (Demo.dashboard_session ∅
               [str "Here you go: [{}, 5, {}] Enjoy!"])).2))
    by (vm_compute; left; reflexivity).
  exact (analyze_image_returns_array_unchanged Demo.ext Demo.model
           Demo.picture _ _ _ _ _ _ _ (triple_eta _) Hreply Hmatch Hloads).
Defined.




(** C8 at a session that has no catalog yet, at the same session after a
    Dashboard run stored one record, and at the same session after a
    Dashboard run that read one record and then met a file [st.image]
    refused: that run stored nothing, and the page finds the session state
    as it was before it. *)
Lemma outfit_page_generates_from_the_session_catalog_witness :
  let run := main Demo.ext Demo.repr Demo.model (Demo.outfit_session ∅ []) in
  let run0 :=
    main Demo.ext Demo.repr Demo.model
      (Demo.dashboard_session ∅ [Demo.one_record]) in
  let run1 :=
    main Demo.ext Demo.repr Demo.model
      (Demo.outfit_session (session run0.1.2) [str "Outfit 1: the shirt."]) in
  let crashed :=
    main Demo.ext Demo.repr Demo.model
      (Demo.mixed_upload ∅ [Demo.one_record]) in
  (observe drawn run.2
   = [title (str "Wardrobe Styling App");
      sidebar_title (str "Navigation");
      header (str "Outfit Combinations");
      warning (str "Please upload an image in the dashboard page to generate outfit combinations.")]
   /\ observe generate_call run.2 = [])
  /\ observe generate_call run1.2
     = [(Demo.model,
         Text (outfit_prompt Demo.repr
                 (PyList [PyDict [(str "category", PyStr (str "shirt"))]])))]
  /\ session (Demo.outfit_session (session crashed.1.2) []) = ∅.
Proof.
  cbv zeta. split; [|split].
  - assert (Hpage :
      In (str "Outfit Combinations")
        (observe page_chosen
           (main Demo.ext Demo.repr Demo.model (Demo.outfit_session ∅ [])).2))
      by (vm_compute; left; reflexivity).
    exact (proj1 (outfit_page_generates_from_the_session_catalog
                    Demo.ext Demo.repr Demo.model (Demo.outfit_session ∅ [])
                    _ _ _ (triple_eta _) Hpage)).
  - assert (Hpage0 :
      In (str "Dashboard")
        (observe page_chosen
           (main Demo.ext Demo.repr Demo.model
              (Demo.dashboard_session ∅ [Demo.one_record])).2))
      by (vm_compute; left; reflexivity).
    assert (Hpage :
      In (str "Outfit Combinations")
        (observe page_chosen
           (main Demo.ext Demo.repr Demo.model
              (Demo.outfit_session
                 (session
                    (main Demo.ext Demo.repr Demo.model
                       (Demo.dashboard_session ∅ [Demo.one_record])).1.2)
                 [str "Outfit 1: the shirt."])).2))
      by (vm_compute; left; reflexivity).
    assert (Hsession :
      session
        (Demo.outfit_session
           (session
              (main Demo.ext Demo.repr Demo.model
                 (Demo.dashboard_session ∅ [Demo.one_record])).1.2)
           [str "Outfit 1: the shirt."])
      = session
          (main Demo.ext Demo.repr Demo.model
             (Demo.dashboard_session ∅ [Demo.one_record])).1.2)
      by exact eq_refl.
    generalize (proj2 (outfit_page_generates_from_the_session_catalog
                         Demo.ext Demo.repr Demo.model _ _ _ _
                         (triple_eta _) Hpage)
                  Demo.model _ _ _ _ (triple_eta _) Hpage0 Hsession).
    vm_compute. exact (fun H => H).
  - assert (Hpage0 :
      In (str "Dashboard")
        (observe page_chosen
           (main Demo.ext Demo.repr Demo.model
              (Demo.mixed_upload ∅ [Demo.one_record])).2))
      by (vm_compute; left; reflexivity).
    assert (Hpage :
      In (str "Outfit Combinations")
        (observe page_chosen
           (main Demo.ext Demo.repr Demo.model
              (Demo.outfit_session
                 (session
                    (main Demo.ext Demo.repr Demo.model
                       (Demo.mixed_upload ∅ [Demo.one_record])).1.2)
                 [])).2))
      by (vm_compute; left; reflexivity).
    assert (Hsession :
      session
        (Demo.outfit_session
           (session
              (main Demo.ext Demo.repr Demo.model
                 (Demo.mixed_upload ∅ [Demo.one_record])).1.2)
           [])
      = session
          (main Demo.ext Demo.repr Demo.model
             (Demo.mixed_upload ∅ [Demo.one_record])).1.2)
      by exact eq_refl.
    generalize (proj2 (outfit_page_generates_from_the_session_catalog
                         Demo.ext Demo.repr Demo.model _ _ _ _
                         (triple_eta _) Hpage)
                  Demo.model _ _ _ _ (triple_eta _) Hpage0 Hsession).
    vm_compute. exact (fun H => H).
Defined.

(** C9 at an environment without the key. *)
Lemma missing_api_key_stops_the_script_witness :
  let run :=
    script Demo.ext Demo.repr
      (mkState ∅
         (Demo.mkWorld None (str "Dashboard") (str "Upload") [] None [])) in
  run.1.1 = Halt
  /\ (exists message,
         observe drawn run.2 = [error message; stop]
         /\ contains (str "GEMINI_API_KEY") message)
  /\ observe configured run.2 = []
  /\ observe built_model run.2 = [].
Proof.
  cbv zeta.
  assert (Hread :
    In (str "GOOGLE_API_KEY", None)
      (observe env_read
         (script Demo.ext Demo.repr
            (mkState ∅
               (Demo.mkWorld None (str "Dashboard") (str "Upload") [] None
                  []))).2))
    by (vm_compute; left; reflexivity).
  exact (missing_api_key_stops_the_script Demo.ext Demo.repr _ _ _ _ None
           (triple_eta _) Hread (or_introl eq_refl)).
Defined.

(** C10 at a session with a catalog, at a Dashboard run whose one picture
    gave nothing, and at a Dashboard run that read one record and then met
    a file [st.image] refused: neither run assigns. *)
Lemma dashboard_assigns_catalog_only_on_success_witness :
  let before : gmap string PyValue :=
    {["catalog"%string := PyList [PyDict []]]} in
  let run :=
    main Demo.ext Demo.repr Demo.model
      (Demo.dashboard_session before
         [str "Sorry, I cannot see any clothing."]) in
  let crashed :=
    main Demo.ext Demo.repr Demo.model
      (Demo.mixed_upload before [Demo.one_record]) in
  (session run.1.2 = before
   /\ In (error (str "Could not get analysis, please try again for one of the images."))
        (observe drawn run.2)
   /\ run.1.1 = Ok tt
   /\ In (error (str "Could not get analysis, please try again for all images."))
        (observe drawn run.2))
  /\ session crashed.1.2 = before.
Proof.
  cbv zeta. split.
  - assert (Hpage :
      In (str "Dashboard")
        (observe page_chosen
           (main Demo.ext Demo.repr Demo.model
              (Demo.dashboard_session
                 {["catalog"%string := PyList [PyDict []]]}
                 [str "Sorry, I cannot see any clothing."])).2))
      by (vm_compute; left; reflexivity).
    destruct (dashboard_assigns_catalog_only_on_success Demo.ext Demo.repr
                Demo.model _ _ _ _ (triple_eta _) Hpage) as (_ & _ & Hnone).
    destruct Hnone as [Hsession Herror].
    + vm_compute. intros l [].
    + split; [exact Hsession|].
      destruct Herror as [Hone Hall]; [vm_compute; discriminate|].
      split; [exact Hone|]. apply Hall. vm_compute. reflexivity.
  - assert (Hpage :
      In (str "Dashboard")
        (observe page_chosen
           (main Demo.ext Demo.repr Demo.model
              (Demo.mixed_upload
                 {["catalog"%string := PyList [PyDict []]]}
                 [Demo.one_record])).2))
      by (vm_compute; left; reflexivity).
    generalize (proj1 (dashboard_assigns_catalog_only_on_success Demo.ext
                         Demo.repr Demo.model _ _ _ _ (triple_eta _) Hpage)).
    vm_compute. exact (fun H => H).
Defined.

(** C6 as the spec has it fails: here [generate_outfit_combinations]
    succeeds and returns the text of the reply with nothing changed, not
    even the blanks around it. *)
Lemma generate_outfit_combinations_returns_the_reply_as_it_is :
  let run :=
    generate_outfit_combinations Demo.ext Demo.repr Demo.model (PyList [])
      (Demo.outfit_session ∅ [str "  Outfit 1: shirt and jeans.  "]) in
  run.1.1 = Ok (Some (str "  Outfit 1: shirt and jeans.  "))
  /\ observe reply_text run.2 = [str "  Outfit 1: shirt and jeans.  "].
Proof. vm_compute. split; reflexivity. Qed.

(** * The further properties at sample inputs *)

(** X4 at a picture that PIL cannot read. *)
Lemma unreadable_image_is_not_sent_to_the_model_witness :
  let run :=
    analyze_image Faulty.ext Demo.model Demo.picture
      Faulty.unreadable_picture in
  run.1.1 = Ok None
  /\ observe generate_call run.2 = []
  /\ observe drawn run.2
     = [error (str "Error analyzing image: "
               ++ str "cannot identify image file")].
Proof.
  cbv zeta.
  assert (Hopen :
    In (inl (OtherError (str "cannot identify image file")))
      (observe open_result
         (analyze_image Faulty.ext Demo.model Demo.picture
            Faulty.unreadable_picture).2))
    by (vm_compute; left; reflexivity).
  exact (unreadable_image_is_not_sent_to_the_model Faulty.ext Demo.model
           Demo.picture _ _ _ _ _ (triple_eta _) Hopen).
Defined.

(** X5 at a reply with braces that are not JSON. *)
Lemma json_loads_exceptions_are_told_apart_witness :
  let run :=
    analyze_image Faulty.ext Demo.model Demo.picture Faulty.broken_json in
  run.1.1 = Ok None
  /\ observe drawn run.2
     = [error
          (str "Error parsing JSON from the cleaned response: "
           ++ str "Expecting property name enclosed in double quotes: line 1 column 3 (char 2)")].
Proof.
  cbv zeta.
  assert (Hloads :
    In (str "[{oops}]",
        inl (JSONDecodeError
               (str "Expecting property name enclosed in double quotes: line 1 column 3 (char 2)")))
      (observe loads_call
         (analyze_image Faulty.ext Demo.model Demo.picture
            Faulty.broken_json).2))
    by (vm_compute; left; reflexivity).
  exact (json_loads_exceptions_are_told_apart Faulty.ext Demo.model
           Demo.picture _ _ _ _ _ _ (triple_eta _) Hloads).
Defined.

(** X7 at a reply with prose around the array. *)
Lemma json_loads_gets_a_bracketed_piece_of_the_reply_witness :
  let run :=
    analyze_image Demo.ext Demo.model Demo.picture
      (Demo.dashboard_session ∅ [str "Here you go: [{}, 5, {}] Enjoy!"]) in
  exists text pre post blanks1 body blanks2,
    In text (observe reply_text run.2)
    /\ strip text = pre ++ str "[{}, 5, {}]" ++ post
    /\ str "[{}, 5, {}]"
       = [91%N] ++ blanks1 ++ [123%N] ++ body ++ [125%N] ++ blanks2
         ++ [93%N]
    /\ Forall (fun c => isspace c = true) blanks1
    /\ Forall (fun c => isspace c = true) blanks2.
Proof.
  cbv zeta.
  assert (Hloads :
    In (str "[{}, 5, {}]", inr (PyList [PyDict []; PyInt 5; PyDict []]))
      (observe loads_call
         (analyze_image Demo.ext Demo.model Demo.picture
            (Demo.dashboard_session ∅
               [str "Here you go: [{}, 5, {}] Enjoy!"])).2))
    by (vm_compute; left; reflexivity).
  exact (json_loads_gets_a_bracketed_piece_of_the_reply Demo.ext Demo.model
           Demo.picture _ _ _ _ _ _ (triple_eta _) Hloads).
Defined.

(** X8 at a Dashboard run with no file in the uploader. *)
Lemma dashboard_without_pictures_does_nothing_witness :
  let before : gmap string PyValue :=
    {["catalog"%string := PyList [PyDict []]]} in
  let run :=
    main Demo.ext Demo.repr Demo.model
      (mkState before
         (Demo.mkWorld (Some (str "secret")) (str "Dashboard") (str "Upload")
            [] None [])) in
  run.1.1 = Ok tt
  /\ session run.1.2 = before
  /\ observe drawn run.2
     = [title (str "Wardrobe Styling App");
        sidebar_title (str "Navigation");
        header (str "Wardrobe Dashboard")]
  /\ observe generate_call run.2 = []
  /\ observe loads_call run.2 = [].
Proof.
  cbv zeta.
  assert (Hpage :
    In (str "Dashboard")
      (observe page_chosen
         (main Demo.ext Demo.repr Demo.model
            (mkState {["catalog"%string := PyList [PyDict []]]}
               (Demo.mkWorld (Some (str "secret")) (str "Dashboard")
                  (str "Upload") [] None []))).2))
    by (vm_compute; left; reflexivity).
  assert (Hnone :
    concat
      (observe uploaded
         (main Demo.ext Demo.repr Demo.model
            (mkState {["catalog"%string := PyList [PyDict []]]}
               (Demo.mkWorld (Some (str "secret")) (str "Dashboard")
                  (str "Upload") [] None []))).2)
    = [])
    by (vm_compute; reflexivity).
  exact (dashboard_without_pictures_does_nothing Demo.ext Demo.repr
           Demo.model _ _ _ _ (triple_eta _) Hpage Hnone).
Defined.

(** X9 at a Dashboard run with a picture and then a file [st.image]
    refuses. *)
Lemma dashboard_analyses_each_picture_once_witness :
  let run :=
    main Demo.ext Demo.repr Demo.model
      (Demo.mixed_upload ∅ [Demo.one_record]) in
  (exists rest,
      [Demo.picture; Demo.document]
      = [Demo.picture] ++ Demo.document :: rest)
  /\ length (observe generate_call run.2) <= length (observe opened run.2)
  /\ length (observe loads_call run.2)
     <= length (observe generate_call run.2).
Proof.
  cbv zeta.
  assert (Hpage :
    In (str "Dashboard")
      (observe page_chosen
         (main Demo.ext Demo.repr Demo.model
            (Demo.mixed_upload ∅ [Demo.one_record])).2))
    by (vm_compute; left; reflexivity).
  destruct (dashboard_analyses_each_picture_once Demo.ext Demo.repr
              Demo.model _ _ _ _ (triple_eta _) Hpage)
    as (Hopened & Hgen & Hloads).
  split; [|split; assumption].
  revert Hopened. vm_compute. exact (fun H => H).
Defined.

(** X10 at a Dashboard run that reads one record, and at one that reads it
    and then meets a file [st.image] refuses. *)
Lemma dashboard_completes_on_renderable_records_witness :
  let run :=
    main Demo.ext Demo.repr Demo.model
      (Demo.dashboard_session ∅ [Demo.one_record]) in
  let crashed :=
    main Demo.ext Demo.repr Demo.model
      (Demo.mixed_upload ∅ [Demo.one_record]) in
  ((Forall (renderable Demo.repr) (concat (observe parsed_list run.2))
    /\ observe refused run.2 = []
    /\ run.1.1 = Ok tt
    /\ In (success (str "Image Analysis Complete!")) (observe drawn run.2))
   \/ ((~ Forall (renderable Demo.repr) (concat (observe parsed_list run.2))
        \/ observe refused run.2 <> [])
       /\ exists e, run.1.1 = Raise e))
  /\ ((Forall (renderable Demo.repr)
         (concat (observe parsed_list crashed.2))
       /\ observe refused crashed.2 = []
       /\ crashed.1.1 = Ok tt
       /\ In (success (str "Image Analysis Complete!"))
            (observe drawn crashed.2))
      \/ ((~ Forall (renderable Demo.repr)
              (concat (observe parsed_list crashed.2))
           \/ observe refused crashed.2 <> [])
          /\ exists e, crashed.1.1 = Raise e)).
Proof.
  cbv zeta. split.
  - assert (Hpage :
      In (str "Dashboard")
        (observe page_chosen
           (main Demo.ext Demo.repr Demo.model
              (Demo.dashboard_session ∅ [Demo.one_record])).2))
      by (vm_compute; left; reflexivity).
    assert (Hall :
      concat
        (observe parsed_list
           (main Demo.ext Demo.repr Demo.model
              (Demo.dashboard_session ∅ [Demo.one_record])).2)
      <> [])
      by (vm_compute; discriminate).
    exact (dashboard_completes_on_renderable_records Demo.ext Demo.repr
             Demo.model _ _ _ _ (triple_eta _) Hpage Hall).
  - assert (Hpage :
      In (str "Dashboard")
        (observe page_chosen
           (main Demo.ext Demo.repr Demo.model
              (Demo.mixed_upload ∅ [Demo.one_record])).2))
      by (vm_compute; left; reflexivity).
    assert (Hall :
      concat
        (observe parsed_list
           (main Demo.ext Demo.repr Demo.model
              (Demo.mixed_upload ∅ [Demo.one_record])).2)
      <> [])
      by (vm_compute; discriminate).
    exact (dashboard_completes_on_renderable_records Demo.ext Demo.repr
             Demo.model _ _ _ _ (triple_eta _) Hpage Hall).
Defined.

(** X11 at a first run of the script, on the Dashboard with one picture. *)
Lemma script_keeps_the_session_catalog_a_nonempty_list_witness :
  catalog_ok
    (session
       (script Demo.ext Demo.repr
          (Demo.dashboard_session ∅ [Demo.one_record])).1.2).
Proof.
  assert (Hok : catalog_ok
                  (session (Demo.dashboard_session ∅ [Demo.one_record])))
    by (vm_compute; exact I).
  exact (script_keeps_the_session_catalog_a_nonempty_list Demo.ext Demo.repr
           _ Hok).
Defined.

(** X12 at a session with a catalog whose model gives no text. *)
Lemma outfit_page_without_suggestions_witness :
  let run :=
    main Demo.ext Demo.repr Demo.model
      (Demo.outfit_session {["catalog"%string := PyList [PyDict []]]} []) in
  run.1.1 = Ok tt
  /\ observe drawn run.2
     = title (str "Wardrobe Styling App")
       :: sidebar_title (str "Navigation")
       :: header (str "Outfit Combinations")
       :: spinner_enter (str "Generating Outfit Combinations...")
       :: option_list
            (option_map
               (fun e => error (str "Error generating outfit combinations: "
                                ++ exn_str e))
               (head (observe raised run.2)))
       ++ [spinner_exit;
           error (str "Could not generate outfit combinations")]
  /\ observe download run.2 = [].
Proof.
  cbv zeta.
  assert (Hpage :
    In (str "Outfit Combinations")
      (observe page_chosen
         (main Demo.ext Demo.repr Demo.model
            (Demo.outfit_session {["catalog"%string := PyList [PyDict []]]}
               [])).2))
    by (vm_compute; left; reflexivity).
  assert (Hcatalog :
    session
      (Demo.outfit_session {["catalog"%string := PyList [PyDict []]]} [])
    !! "catalog"%string = Some (PyList [PyDict []]))
    by (vm_compute; reflexivity).
  assert (Hraised :
    observe raised
      (main Demo.ext Demo.repr Demo.model
         (Demo.outfit_session {["catalog"%string := PyList [PyDict []]]}
            [])).2
    <> [])
    by (vm_compute; discriminate).
  exact (outfit_page_without_suggestions Demo.ext Demo.repr Demo.model
           _ _ _ _ _ (triple_eta _) Hpage Hcatalog (or_introl Hraised)).
Defined.


(** X14 at a picture with a reply. *)
Lemma analyze_image_sends_the_prompt_and_the_opened_image_witness :
  let run :=
    analyze_image Demo.ext Demo.model Demo.picture
      (Demo.dashboard_session ∅ [Demo.one_record]) in
  exists image_data,
    observe open_result run.2 = [inr image_data]
    /\ observe opened run.2 = [Demo.picture]
    /\ Parts [TextPart analysis_prompt; ImagePart (ImageFile 7)]
       = Parts [TextPart analysis_prompt; ImagePart image_data].
Proof.
  cbv zeta.
  assert (Hcall :
    In (Demo.model, Parts [TextPart analysis_prompt; ImagePart (ImageFile 7)])
      (observe generate_call
         (analyze_image Demo.ext Demo.model Demo.picture
            (Demo.dashboard_session ∅ [Demo.one_record])).2))
    by (vm_compute; left; reflexivity).
  exact (analyze_image_sends_the_prompt_and_the_opened_image Demo.ext
           Demo.model Demo.picture _ _ _ _ _ _ (triple_eta _) Hcall).
Defined.

(** X15 at an environment with a key. *)
Lemma script_configures_the_client_with_the_key_witness :
  let run :=
    script Demo.ext Demo.repr (Demo.dashboard_session ∅ [Demo.one_record]) in
  observe env_read run.2
  = [(str "GOOGLE_API_KEY", Some (115%N :: str "ecret"))]
  /\ observe configured run.2 = [Some (115%N :: str "ecret")]
  /\ (observe drawn run.2 <> [] ->
      exists model,
        observe built_model run.2 = [(str "gemini-1.5-flash", inr model)]).
Proof.
  cbv zeta.
  assert (Hread :
    In (str "GOOGLE_API_KEY", Some (115%N :: str "ecret"))
      (observe env_read
         (script Demo.ext Demo.repr
            (Demo.dashboard_session ∅ [Demo.one_record])).2))
    by (vm_compute; left; reflexivity).
  exact (script_configures_the_client_with_the_key Demo.ext Demo.repr
           _ _ _ _ _ _ (triple_eta _) Hread).
Defined.

(** X16 at a session whose catalog has a number among its records. *)
Lemma outfit_page_crashes_on_a_bad_record_witness :
  let run :=
    main Demo.ext Demo.repr Demo.model
      (Demo.outfit_session
         {["catalog"%string := PyList [PyDict []; PyInt 5; PyDict []]]}
         [str "Outfit 1: the shirt."]) in
  (exists e, run.1.1 = Raise e)
  /\ observe download run.2 = []
  /\ observe drawn run.2
     = [title (str "Wardrobe Styling App");
        sidebar_title (str "Navigation");
        header (str "Outfit Combinations");
        spinner_enter (str "Generating Outfit Combinations...");
        spinner_exit;
        subheader (str "Outfit Suggestions:");
        markdown (str "Outfit 1: the shirt.") false].
Proof.
  cbv zeta.
  assert (Hpage :
    In (str "Outfit Combinations")
      (observe page_chosen
         (main Demo.ext Demo.repr Demo.model
            (Demo.outfit_session
               {["catalog"%string := PyList [PyDict []; PyInt 5; PyDict []]]}
               [str "Outfit 1: the shirt."])).2))
    by (vm_compute; left; reflexivity).
  assert (Hcatalog :
    session
      (Demo.outfit_session
         {["catalog"%string := PyList [PyDict []; PyInt 5; PyDict []]]}
         [str "Outfit 1: the shirt."])
    !! "catalog"%string
    = Some (PyList [PyDict []; PyInt 5; PyDict []]))
    by (vm_compute; reflexivity).
  assert (Hbad :
    ~ Forall (renderable Demo.repr) [PyDict []; PyInt 5; PyDict []]).
  { intros Hall. inversion Hall as [|? ? _ Hrest].
    inversion Hrest as [|? ? Hnumber _].
    destruct Hnumber as (d & texts & Hitem & _). discriminate Hitem. }
  assert (Hreply :
    In (str "Outfit 1: the shirt.")
      (observe reply_text
         (main Demo.ext Demo.repr Demo.model
            (Demo.outfit_session
               {["catalog"%string := PyList [PyDict []; PyInt 5; PyDict []]]}
               [str "Outfit 1: the shirt."])).2))
    by (vm_compute; left; reflexivity).
  assert (Hne : str "Outfit 1: the shirt." <> [])
    by (vm_compute; discriminate).
  exact (outfit_page_crashes_on_a_bad_record Demo.ext Demo.repr Demo.model
           _ _ _ _ _ _ (triple_eta _) Hpage Hcatalog Hbad Hreply Hne).
Defined.
